(** * Sales insight agent: cache, envelope normalisation, date range
      resolution, order filter and analysis call of [run.py].

    The Python functions are embedded as Rocq functions.  Values that
    come from JSON are values of [Json]; the module-level cache is passed
    explicitly; a [try]/[except] block is a computation in [Result] with
    a handler; calls whose occurrence matters (the HTTP request, each
    [isoparse] call, each warning line) are recorded in a list of
    [event]s.  The third-party functions [dateutil.parser.isoparse] and
    [json.loads], the answer of the order API and the answer of the LLM
    client are inputs of the model. *)

From Stdlib Require Import ZArith List String Ascii Bool Lia QArith.
Import ListNotations.
Open Scope string_scope.
Open Scope list_scope.
Open Scope Z_scope.

(** ** Python values that come out of JSON *)

#[warnings="-register-all"]
Inductive Json : Type :=
| JNull
| JBool (b : bool)
| JInt (n : Z)
| JFloat (q : Q)
| JStr (s : string)
| JList (items : list Json)
| JDict (entries : list (string * Json)).

(** Python truth value of a JSON value ([if v:], [not v]). *)
Definition truthy (v : Json) : bool :=
  match v with
  | JNull => false
  | JBool b => b
  | JInt n => negb (n =? 0)
  | JFloat q => negb (Qnum q =? 0)
  | JStr s => negb (s =? "")%string
  | JList items => match items with [] => false | _ :: _ => true end
  | JDict entries => match entries with [] => false | _ :: _ => true end
  end.

(** [key in d] and [d[key]] on the entries of a dict. *)
Fixpoint dict_lookup (entries : list (string * Json)) (key : string)
  : option Json :=
  match entries with
  | [] => None
  | (k, v) :: rest => if (k =? key)%string then Some v else dict_lookup rest key
  end.

(** [d.get(key)]: [None] when the key is missing. *)
Definition dict_get (entries : list (string * Json)) (key : string) : Json :=
  match dict_lookup entries key with
  | Some v => v
  | None => JNull
  end.

Definition isinstance_dict (v : Json) : bool :=
  match v with JDict _ => true | _ => false end.

(** [v == s] for a string literal [s]: false, never an error, when [v] is
    not a string. *)
Definition json_eq_str (v : Json) (s : string) : bool :=
  match v with JStr t => (t =? s)%string | _ => false end.

(** ** Exceptions and the [try]/[except] blocks *)

Inductive exn : Type :=
| AttributeError
| TypeError
| ValueError
| KeyError
| JSONDecodeError
| ConnectionError      (* requests.exceptions.RequestException, transport *)
| HTTPError            (* requests.exceptions.RequestException, status *)
| ClientError (name : string).  (* an Exception raised by the LLM client *)

Inductive Result (A : Type) : Type :=
| Ok (a : A)
| Raise (e : exn).
Arguments Ok {A} a.
Arguments Raise {A} e.

Definition bind {A B} (m : Result A) (k : A -> Result B) : Result B :=
  match m with
  | Ok a => k a
  | Raise e => Raise e
  end.

Notation "x <- m ;; k" := (bind m (fun x => k))
  (at level 61, m at next level, right associativity).

Definition of_option {A} (e : exn) (o : option A) : Result A :=
  match o with Some a => Ok a | None => Raise e end.

(** [try: body except <classes>: handler]; an exception outside the
    caught classes goes on to the caller. *)
Definition try_except {A} (body : Result A) (caught : exn -> bool)
  (handler : exn -> Result A) : Result A :=
  match body with
  | Ok a => Ok a
  | Raise e => if caught e then handler e else Raise e
  end.

(** Every exception of the model is a subclass of [Exception]. *)
Definition is_Exception (e : exn) : bool := true.

Definition is_RequestException (e : exn) : bool :=
  match e with ConnectionError | HTTPError => true | _ => false end.

Definition is_JSONDecodeError (e : exn) : bool :=
  match e with JSONDecodeError => true | _ => false end.

(** ** Dates and naive datetimes ([datetime] module) *)

Record date : Type := Date { year : Z; month : Z; day : Z }.

Record time : Type :=
  Time { t_hour : Z; t_minute : Z; t_second : Z; t_microsecond : Z }.

(** A timezone-naive [datetime.datetime]. *)
Record datetime : Type :=
  DateTime { date_of : date; hour : Z; minute : Z; second : Z;
             microsecond : Z }.

(** What [isoparse] returns: a naive datetime, or an aware one when the
    string carries [Z] or an offset (in seconds). *)
Inductive parsed_datetime : Type :=
| Naive (dt : datetime)
| Aware (dt : datetime) (utcoffset : Z).

Definition parsed_date (p : parsed_datetime) : date :=
  match p with Naive dt | Aware dt _ => date_of dt end.

Definition time_min : time := Time 0 0 0 0.
Definition time_max : time := Time 23 59 59 999999.

(** [datetime.datetime.combine(d, t)] *)
Definition combine (d : date) (t : time) : datetime :=
  DateTime d (t_hour t) (t_minute t) (t_second t) (t_microsecond t).

Definition is_leap (y : Z) : bool :=
  (y mod 4 =? 0) && (negb (y mod 100 =? 0) || (y mod 400 =? 0)).

Definition days_in_month (y m : Z) : Z :=
  if (m =? 2) && is_leap y then 29
  else nth (Z.to_nat m) [-1; 31; 28; 31; 30; 31; 30; 31; 31; 30; 31; 30; 31] 0.

Definition days_before_year (y : Z) : Z :=
  let y1 := y - 1 in y1 * 365 + y1 / 4 - y1 / 100 + y1 / 400.

Definition days_before_month (y m : Z) : Z :=
  nth (Z.to_nat m) [-1; 0; 31; 59; 90; 120; 151; 181; 212; 243; 273; 304; 334] 0
  + (if (2 <? m) && is_leap y then 1 else 0).

(** [date.toordinal()] *)
Definition toordinal (d : date) : Z :=
  days_before_year (year d) + days_before_month (year d) (month d) + day d.

(** A [timedelta] is kept as its total number of microseconds (Python
    normalises the three fields, so comparison is comparison of totals). *)
Definition timedelta : Type := Z.

Definition timedelta_of (days seconds microseconds : Z) : timedelta :=
  (days * 86400 + seconds) * 1000000 + microseconds.

Definition seconds_of_day (dt : datetime) : Z :=
  second dt + minute dt * 60 + hour dt * 3600.

(** [a - b] on naive datetimes. *)
Definition datetime_sub (a b : datetime) : timedelta :=
  timedelta_of (toordinal (date_of a) - toordinal (date_of b))
               (seconds_of_day a - seconds_of_day b)
               (microsecond a - microsecond b).

(** Comparison of naive datetimes: the seven fields, lexicographically. *)
Definition lex (c1 c2 : comparison) : comparison :=
  match c1 with Eq => c2 | _ => c1 end.

Definition date_cmp (a b : date) : comparison :=
  lex (year a ?= year b) (lex (month a ?= month b) (day a ?= day b)).

Definition datetime_cmp (a b : datetime) : comparison :=
  lex (date_cmp (date_of a) (date_of b))
   (lex (hour a ?= hour b)
    (lex (minute a ?= minute b)
     (lex (second a ?= second b) (microsecond a ?= microsecond b)))).

Definition datetime_leb (a b : datetime) : bool :=
  match datetime_cmp a b with Gt => false | _ => true end.

Definition date_leb (a b : date) : bool :=
  match date_cmp a b with Gt => false | _ => true end.

(** [a <= p] where [a] is naive and [p] came out of the parser: Python
    raises [TypeError] when [p] is aware. *)
Definition naive_le_parsed (a : datetime) (p : parsed_datetime) : Result bool :=
  match p with
  | Naive dt => Ok (datetime_leb a dt)
  | Aware _ _ => Raise TypeError
  end.

Definition parsed_le_naive (p : parsed_datetime) (b : datetime) : Result bool :=
  match p with
  | Naive dt => Ok (datetime_leb dt b)
  | Aware _ _ => Raise TypeError
  end.

(** Values the [date] and [datetime] constructors accept. *)
Definition valid_date (d : date) : Prop :=
  1 <= year d <= 9999 /\ 1 <= month d <= 12 /\
  1 <= day d <= days_in_month (year d) (month d).

Definition valid_datetime (dt : datetime) : Prop :=
  valid_date (date_of dt) /\ 0 <= hour dt <= 23 /\ 0 <= minute dt <= 59 /\
  0 <= second dt <= 59 /\ 0 <= microsecond dt <= 999999.

(** Microseconds since the start of day 0 of the proleptic calendar. *)
Definition to_micros (dt : datetime) : Z :=
  timedelta_of (toordinal (date_of dt)) (seconds_of_day dt) (microsecond dt).

(** ** The order cache and the fetcher *)

Record Cache : Type :=
  mkCache { data : option (list Json); timestamp : option datetime }.

(** The module-level cache at process start. *)
Definition _api_cache : Cache := mkCache None None.

(** [CACHE_DURATION = datetime.timedelta(minutes=5)] *)
Definition CACHE_DURATION : timedelta := timedelta_of 0 (5 * 60) 0.

(** What [requests.get] and the response object answer: a transport
    failure, or a response with its status code and the value of
    [response.json()] ([None]: the body is not JSON). *)
Inductive HttpResult : Type :=
| TransportFailure
| Response (status_code : Z) (json_body : option Json).

Inductive event : Type :=
| EvHttpGet                       (* requests.get(SALES_API_ENDPOINT) *)
| EvIsoparse (arg : Json)         (* a call of dateutil.parser.isoparse *)
| EvWarn (order_id : Json).       (* the [WARN] line of the filter *)

(** [response.raise_for_status()]: raises for 4xx and 5xx. *)
Definition raise_for_status (status_code : Z) : Result unit :=
  if (400 <=? status_code) && (status_code <? 600) then Raise HTTPError
  else Ok tt.

(** Lines 58-83: the order list inside the decoded body; [None] is the
    [return None] of the two error branches. *)
Definition find_orders_list (body : Json) : option (list Json) :=
  match body with
  | JDict d =>
      match dict_lookup d "data" with
      | Some (JList l) => Some l
      | _ =>
          match dict_lookup d "results" with
          | Some (JList l) => Some l
          | _ =>
              match dict_lookup d "orders" with
              | Some (JList l) => Some l
              | _ => None
              end
          end
      end
  | JList l => Some l
  | _ => None
  end.

(** The cache test of lines 46-47. *)
Definition cache_hit (now : datetime) (c : Cache) : option (list Json) :=
  match data c, timestamp c with
  | Some d, Some ts =>
      if truthy (JList d) && (datetime_sub now ts <? CACHE_DURATION)
      then Some d else None
  | _, _ => None
  end.

(** The [try] block of lines 52-89, with the cache it leaves. *)
Definition fetch (now : datetime) (api : HttpResult) (c : Cache)
  : Result (option (list Json)) * Cache :=
  match api with
  | TransportFailure => (Raise ConnectionError, c)
  | Response status_code json_body =>
      match raise_for_status status_code with
      | Raise e => (Raise e, c)
      | Ok _ =>
          match json_body with
          | None => (Raise JSONDecodeError, c)
          | Some body =>
              match find_orders_list body with
              | None => (Ok None, c)
              | Some orders_list =>
                  (Ok (Some orders_list),
                   mkCache (Some orders_list) (Some now))
              end
          end
      end
  end.

Record Outcome : Type :=
  mkOutcome { returned : Result (option (list Json));
              cache_after : Cache;
              trace : list event }.

(** [get_sales_data()], with the clock reading [now], the answer [api]
    the order API gives if it is asked, and the cache [c]. *)
Definition get_sales_data (now : datetime) (api : HttpResult) (c : Cache)
  : Outcome :=
  match cache_hit now c with
  | Some d => mkOutcome (Ok (Some d)) c []
  | None =>
      let '(r, c') := fetch now api c in
      mkOutcome
        (try_except r
           (fun e => is_RequestException e || is_JSONDecodeError e)
           (fun _ => Ok None))
        c' [EvHttpGet]
  end.

(** ** String helpers ([str.strip], [str.replace]) *)

(** A Python [str] is kept as the bytes of its UTF-8 encoding, so that
    an ASCII character is one byte, equality of strings is equality of
    bytes, and an ASCII marker occurs at the same places.

    The whitespace characters [str.strip()] removes are U+0009-U+000D,
    U+001C-U+0020, U+0085, U+00A0, U+1680, U+2000-U+200A, U+2028,
    U+2029, U+202F, U+205F and U+3000.  Encoded, those of the first two
    ranges are one byte, U+0085 and U+00A0 two bytes, the others three
    bytes. *)

(** The one-byte whitespace characters. *)
Definition is_space (c : ascii) : bool :=
  let n := Z.of_nat (nat_of_ascii c) in
  ((9 <=? n) && (n <=? 13)) || ((28 <=? n) && (n <=? 32)).

Definition byte_is (c : ascii) (n : nat) : bool :=
  (nat_of_ascii c =? n)%nat.

(** The two bytes of U+0085 or U+00A0. *)
Definition is_space2 (c1 c2 : ascii) : bool :=
  byte_is c1 194 && (byte_is c2 133 || byte_is c2 160).

(** The three bytes of U+1680, U+2000-U+200A, U+2028, U+2029, U+202F,
    U+205F or U+3000. *)
Definition is_space3 (c1 c2 c3 : ascii) : bool :=
  let n3 := nat_of_ascii c3 in
  (byte_is c1 225 && byte_is c2 154 && byte_is c3 128)
  || (byte_is c1 226 && byte_is c2 128
      && (((128 <=? n3) && (n3 <=? 138)) || (n3 =? 168) || (n3 =? 169)
          || (n3 =? 175))%nat)
  || (byte_is c1 226 && byte_is c2 129 && byte_is c3 159)
  || (byte_is c1 227 && byte_is c2 128 && byte_is c3 128).

(** Drops the whitespace characters at the front of [s]; [sp2] and
    [sp3] recognise the two-byte and three-byte ones, so that the same
    function serves on the reversed string. *)
Fixpoint lstrip_by (sp2 : ascii -> ascii -> bool)
  (sp3 : ascii -> ascii -> ascii -> bool) (s : string) : string :=
  match s with
  | EmptyString => EmptyString
  | String c1 r1 =>
      if is_space c1 then lstrip_by sp2 sp3 r1
      else
        match r1 with
        | EmptyString => s
        | String c2 r2 =>
            if sp2 c1 c2 then lstrip_by sp2 sp3 r2
            else
              match r2 with
              | EmptyString => s
              | String c3 r3 =>
                  if sp3 c1 c2 c3 then lstrip_by sp2 sp3 r3 else s
              end
        end
  end.

(** [s.lstrip()] *)
Definition lstrip (s : string) : string := lstrip_by is_space2 is_space3 s.

Definition string_rev (s : string) : string :=
  string_of_list_ascii (rev (list_ascii_of_string s)).

(** [s.rstrip()]: on the reversed string the bytes of a character come
    in reverse. *)
Definition rstrip (s : string) : string :=
  string_rev
    (lstrip_by (fun c2 c1 => is_space2 c1 c2)
       (fun c3 c2 c1 => is_space3 c1 c2 c3) (string_rev s)).

(** [s.strip()] *)
Definition strip (s : string) : string := rstrip (lstrip s).

(** [s.replace(old, new)] for a non-empty [old]: occurrences are taken
    from the left and do not overlap; [skip] counts the characters of a
    matched occurrence that are still to be dropped. *)
Fixpoint replace_from (old new s : string) (skip : nat) : string :=
  match s with
  | EmptyString => EmptyString
  | String c rest =>
      match skip with
      | S k => replace_from old new rest k
      | O =>
          if prefix old s
          then (new ++ replace_from old new rest (String.length old - 1))%string
          else String c (replace_from old new rest 0)
      end
  end.

Definition replace (s old new : string) : string := replace_from old new s 0.

(** ** The LLM client *)

(** The two requests the program sends; the prompt text is a function of
    the values listed here. *)
Inductive prompt : Type :=
| DatePrompt (today : date) (user_query : string)
| AnalysisPrompt (user_query : string) (orders : list Json).

(** The client raises, or answers with a response whose [text] may be
    [None]. *)
Inductive LlmResult : Type :=
| LlmRaises (e : exn)
| LlmResponse (text : option string).

Definition Client : Type := prompt -> LlmResult.

(** [client.models.generate_content(...)], then [response.text]. *)
Definition generate_content (client : Client) (p : prompt)
  : Result (option string) :=
  match client p with
  | LlmRaises e => Raise e
  | LlmResponse text => Ok text
  end.

(** [v[key]] *)
Definition subscript (v : Json) (key : string) : Result Json :=
  match v with
  | JDict d => of_option KeyError (dict_lookup d key)
  | _ => Raise TypeError
  end.

(** [order.get(key)]: only a dict has the method. *)
Definition method_get (order : Json) (key : string) : Result Json :=
  match order with
  | JDict d => Ok (dict_get d key)
  | _ => Raise AttributeError
  end.

(** Line 129: the response text without its code-fence markers. *)
Definition json_str_of (text : string) : string :=
  replace (replace (strip text) "```json" "") "```" "".

Definition apology : string :=
  "I'm sorry, I encountered an error while analyzing the sales data.".

Section Pipeline.

(** [dateutil.parser.isoparse] on a string; [None]: it raises. *)
Variable isoparse : string -> option parsed_datetime.

(** [json.loads] on a string; [None]: it raises. *)
Variable json_loads : string -> option Json.

(** [isoparse] applied to a JSON value: anything but a string makes it
    raise. *)
Definition isoparse_value (v : Json) : Result parsed_datetime :=
  match v with
  | JStr s => of_option ValueError (isoparse s)
  | _ => Raise TypeError
  end.

(** *** Date range resolver *)

(** The [try] block of lines 122-136. *)
Definition date_range_try (client : Client) (user_query : string)
  (today : date) : Result (date * date) :=
  text <- generate_content client (DatePrompt today user_query) ;;
  text <- of_option AttributeError text ;;
  let json_str := json_str_of text in
  dates <- of_option JSONDecodeError (json_loads json_str) ;;
  s <- subscript dates "start_date" ;;
  start_dt <- isoparse_value s ;;
  e <- subscript dates "end_date" ;;
  end_dt <- isoparse_value e ;;
  Ok (parsed_date start_dt, parsed_date end_dt).

(** [get_date_range_from_llm(client, user_query)]; [today] is the date
    read on entry, [today_in_handler] the date read again by the
    handler. *)
Definition get_date_range_from_llm (client : Client) (user_query : string)
  (today today_in_handler : date) : Result (date * date) :=
  try_except (date_range_try client user_query today) is_Exception
    (fun _ => Ok (today_in_handler, today_in_handler)).

(** *** Order filter *)

(** The [try] block of lines 159-170 for one order: whether the order
    is appended, or the exception raised, and the calls made. *)
Definition order_try (start_dt end_dt : datetime) (order : Json)
  : Result bool * list event :=
  match method_get order "createdTime" with
  | Raise e => (Raise e, [])
  | Ok created_time_str =>
      if negb (truthy created_time_str) then (Ok false, [])
      else
        (created_dt <- isoparse_value created_time_str ;;
         lo <- naive_le_parsed start_dt created_dt ;;
         if lo then parsed_le_naive created_dt end_dt else Ok false,
         [EvIsoparse created_time_str])
  end.

(** The body of the [for] loop for one order already known to be
    locked: the [try] block and its handler. *)
Definition order_locked (start_dt end_dt : datetime) (order : Json)
  : Result bool * list event :=
  match order_try start_dt end_dt order with
  | (Ok keep, evs) => (Ok keep, evs)
  | (Raise e, evs) =>
      match method_get order "orderId" with
      | Ok order_id => (Ok false, evs ++ [EvWarn order_id])
      | Raise e' => (Raise e', evs)
      end
  end.

(** One iteration of the [for] loop of lines 157-172: whether the
    order is appended, or the exception that leaves the loop. *)
Definition loop_body (start_dt end_dt : datetime) (order : Json)
  : Result bool * list event :=
  match method_get order "state" with
  | Raise e => (Raise e, [])
  | Ok state =>
      if json_eq_str state "locked"
      then order_locked start_dt end_dt order
      else (Ok false, [])
  end.

(** The loop, with the list built so far and the calls made so far. *)
Fixpoint filter_loop (start_dt end_dt : datetime) (orders : list Json)
  (filtered_orders : list Json) (tr : list event)
  : Result (list Json) * list event :=
  match orders with
  | [] => (Ok filtered_orders, tr)
  | order :: rest =>
      match loop_body start_dt end_dt order with
      | (Ok true, evs) =>
          filter_loop start_dt end_dt rest
            (filtered_orders ++ [order]) (tr ++ evs)
      | (Ok false, evs) =>
          filter_loop start_dt end_dt rest filtered_orders (tr ++ evs)
      | (Raise e, evs) => (Raise e, tr ++ evs)
      end
  end.

(** The verdict of one iteration, as a boolean. *)
Definition appended (start_dt end_dt : datetime) (order : Json) : bool :=
  match fst (loop_body start_dt end_dt order) with
  | Ok true => true
  | _ => false
  end.

(** [filter_orders_by_date(all_orders, start_date, end_date)] *)
Definition filter_orders_by_date (all_orders : list Json)
  (start_date end_date : date) : Result (list Json) * list event :=
  let start_dt := combine start_date time_min in
  let end_dt := combine end_date time_max in
  match all_orders with
  | [] => (Ok [], [])
  | _ :: _ => filter_loop start_dt end_dt all_orders [] []
  end.

(** *** Sales analyst *)

(** [get_analysis_from_gemini(client, user_query, orders)]; the value
    returned is [response.text], which may be [None]. *)
Definition get_analysis_from_gemini (client : Client) (user_query : string)
  (orders : list Json) : Result (option string) :=
  try_except (generate_content client (AnalysisPrompt user_query orders))
    is_Exception (fun _ => Ok (Some apology)).

End Pipeline.

(** ** The specification's wording, for comparison with the code *)

(** "first-match priority among keys data, results, orders (in that
    order) where the value is itself a sequence" *)
Definition candidate_keys : list string := ["data"; "results"; "orders"].

Fixpoint first_list_under (d : list (string * Json)) (keys : list string)
  : option (list Json) :=
  match keys with
  | [] => None
  | k :: rest =>
      match dict_lookup d k with
      | Some (JList l) => Some l
      | _ => first_list_under d rest
      end
  end.

Definition spec_normalize (body : Json) : option (list Json) :=
  match body with
  | JList l => Some l
  | JDict d => first_list_under d candidate_keys
  | _ => None
  end.

(** "data is present if and only if timestamp is present" *)
Definition cache_invariant (c : Cache) : Prop :=
  data c <> None <-> timestamp c <> None.

(** The request failures the fetcher catches: transport, a status
    [raise_for_status] rejects, a body that is not JSON. *)
Inductive request_fails : HttpResult -> Prop :=
| fails_transport : request_fails TransportFailure
| fails_status st body : 400 <= st < 600 -> request_fails (Response st body)
| fails_body st : request_fails (Response st None).

(** An order record: a JSON object. *)
Definition is_order (v : Json) : Prop :=
  match v with JDict _ => True | _ => False end.

(** The inclusive instant range; an aware datetime cannot be compared
    with its naive ends and is not in it. *)
Definition in_range (lo hi : datetime) (p : parsed_datetime) : bool :=
  match p with
  | Naive dt => datetime_leb lo dt && datetime_leb dt hi
  | Aware _ _ => false
  end.

(** [isoparse] is only called on values that are true. *)
Definition sound_event (ev : event) : Prop :=
  match ev with
  | EvIsoparse v => truthy v = true
  | _ => True
  end.

(** [d] without the key [key]. *)
Definition dict_del (d : list (string * Json)) (key : string)
  : list (string * Json) :=
  filter (fun kv => negb (fst kv =? key)%string) d.

Section SpecWording.

Variable isoparse : string -> option parsed_datetime.
Variable json_loads : string -> option Json.

(** The parsed [createdTime] of an order, when it has one. *)
Definition parsed_created_time (order : Json) : option parsed_datetime :=
  match order with
  | JDict d =>
      match dict_lookup d "createdTime" with
      | Some (JStr s) => isoparse s
      | _ => None
      end
  | _ => None
  end.

Definition state_is_locked (order : Json) : bool :=
  match order with
  | JDict d =>
      match dict_lookup d "state" with
      | Some (JStr s) => (s =? "locked")%string
      | _ => false
      end
  | _ => false
  end.

(** "included iff its state field equals "locked" AND its parsed
    createdTime falls within [start_date 00:00:00, end_date
    23:59:59.999999] inclusive" *)
Definition spec_included (start_date end_date : date) (order : Json) : bool :=
  state_is_locked order &&
  match parsed_created_time order with
  | Some p =>
      in_range (combine start_date time_min) (combine end_date time_max) p
  | None => false
  end.

(** An order whose [createdTime] is missing or does not parse. *)
Definition malformed_created_time (order : Json) : Prop :=
  is_order order /\ parsed_created_time order = None.

(** The ways the date resolution can fail: the call raises, the text
    is not the expected JSON structure, or a date field is not a date
    the parser accepts. *)
Inductive resolution_fails (client : Client) (user_query : string)
  (today : date) : Prop :=
| call_raises e :
    client (DatePrompt today user_query) = LlmRaises e ->
    resolution_fails client user_query today
| no_text :
    client (DatePrompt today user_query) = LlmResponse None ->
    resolution_fails client user_query today
| not_json text :
    client (DatePrompt today user_query) = LlmResponse (Some text) ->
    json_loads (json_str_of text) = None ->
    resolution_fails client user_query today
| not_an_object text v :
    client (DatePrompt today user_query) = LlmResponse (Some text) ->
    json_loads (json_str_of text) = Some v ->
    isinstance_dict v = false ->
    resolution_fails client user_query today
| bad_field text d key :
    client (DatePrompt today user_query) = LlmResponse (Some text) ->
    json_loads (json_str_of text) = Some (JDict d) ->
    key = "start_date" \/ key = "end_date" ->
    match dict_lookup d key with
    | Some (JStr s) => isoparse s = None
    | _ => True
    end ->
    resolution_fails client user_query today.

End SpecWording.

(** ** Concrete stand-ins for the two library parsers

    The theorems below hold for every [isoparse] and [json_loads].  To
    run the model on concrete inputs, [iso_fixed_width] reads the
    fixed-width ISO-8601 forms [YYYY-MM-DD], [YYYY-MM-DDTHH:MM:SS] and
    [YYYY-MM-DDTHH:MM:SS.ffffff], each with an optional final [Z], and
    [json_flat_object] reads a JSON object whose values are strings
    without escapes.  Both reject everything else. *)

Definition digit_of (c : ascii) : option Z :=
  let n := Z.of_nat (nat_of_ascii c) in
  if (48 <=? n) && (n <=? 57) then Some (n - 48) else None.

Fixpoint number_from (s : string) (acc : Z) : option Z :=
  match s with
  | EmptyString => Some acc
  | String c rest =>
      match digit_of c with
      | Some d => number_from rest (10 * acc + d)
      | None => None
      end
  end.

(** The [n] characters of [s] from position [i], as a decimal number. *)
Definition field (s : string) (i n : nat) : option Z :=
  let t := substring i n s in
  if (String.length t =? n)%nat then number_from t 0 else None.

Definition char_at (s : string) (i : nat) (c : ascii) : bool :=
  match get i s with
  | Some c' => Ascii.eqb c c'
  | None => false
  end.

Definition valid_dateb (d : date) : bool :=
  (1 <=? year d) && (year d <=? 9999) && (1 <=? month d) && (month d <=? 12)
  && (1 <=? day d) && (day d <=? days_in_month (year d) (month d)).

Definition iso_date (s : string) : option date :=
  match field s 0 4, field s 5 2, field s 8 2 with
  | Some y, Some m, Some d =>
      if char_at s 4 "-" && char_at s 7 "-" && valid_dateb (Date y m d)
      then Some (Date y m d) else None
  | _, _, _ => None
  end.

Definition iso_clock (s : string) : option (Z * Z * Z) :=
  match field s 11 2, field s 14 2, field s 17 2 with
  | Some h, Some mi, Some se =>
      if char_at s 10 "T" && char_at s 13 ":" && char_at s 16 ":"
         && (h <=? 23) && (mi <=? 59) && (se <=? 59)
      then Some (h, mi, se) else None
  | _, _, _ => None
  end.

Definition iso_fixed_width (s : string) : option parsed_datetime :=
  let n := String.length s in
  let zulu := char_at s (n - 1) "Z" in
  let m := if zulu then (n - 1)%nat else n in
  let tag dt := if zulu then Aware dt 0 else Naive dt in
  match iso_date s with
  | None => None
  | Some d =>
      if (m =? 10)%nat then Some (tag (combine d time_min))
      else
        match iso_clock s with
        | None => None
        | Some (h, mi, se) =>
            if (m =? 19)%nat then Some (tag (DateTime d h mi se 0))
            else if (m =? 26)%nat && char_at s 19 "." then
              match field s 20 6 with
              | Some us => Some (tag (DateTime d h mi se us))
              | None => None
              end
            else None
        end
  end.

Definition dquote : ascii := ascii_of_nat 34.

Definition quoted (s : string) : string :=
  (String dquote s ++ String dquote EmptyString)%string.

Fixpoint skip_ws (l : list ascii) : list ascii :=
  match l with
  | c :: rest => if is_space c then skip_ws rest else l
  | [] => []
  end.

(** The characters up to the closing quote, and what follows it. *)
Fixpoint read_string (l acc : list ascii) : option (string * list ascii) :=
  match l with
  | [] => None
  | c :: rest =>
      if Ascii.eqb c dquote then Some (string_of_list_ascii (rev acc), rest)
      else read_string rest (c :: acc)
  end.

Definition read_quoted (l : list ascii) : option (string * list ascii) :=
  match skip_ws l with
  | c :: rest => if Ascii.eqb c dquote then read_string rest [] else None
  | [] => None
  end.

Definition expect (c : ascii) (l : list ascii) : option (list ascii) :=
  match skip_ws l with
  | c' :: rest => if Ascii.eqb c c' then Some rest else None
  | [] => None
  end.

(** The members of an object after its opening brace; a later member
    with the same key hides an earlier one. *)
Fixpoint read_members (fuel : nat) (l : list ascii)
  (acc : list (string * Json)) : option (list (string * Json)) :=
  match fuel with
  | O => None
  | S fuel' =>
      match read_quoted l with
      | None => None
      | Some (k, l1) =>
          match expect ":" l1 with
          | None => None
          | Some l2 =>
              match read_quoted l2 with
              | None => None
              | Some (v, l3) =>
                  match expect "," l3 with
                  | Some l4 => read_members fuel' l4 ((k, JStr v) :: acc)
                  | None =>
                      match expect "}" l3 with
                      | Some l4 =>
                          match skip_ws l4 with
                          | [] => Some ((k, JStr v) :: acc)
                          | _ :: _ => None
                          end
                      | None => None
                      end
                  end
              end
          end
      end
  end.

Definition json_flat_object (s : string) : option Json :=
  match expect "{" (list_ascii_of_string s) with
  | Some l => option_map JDict (read_members (List.length l) l [])
  | None => None
  end.

(** Sample data for the concrete runs. *)

Definition sample_order (order_id state created_time : string) : Json :=
  JDict [("orderId", JStr order_id); ("state", JStr state);
         ("createdTime", JStr created_time); ("total", JInt 906)].

(** The answer of the documented example, inside a fenced block. *)
Definition fenced_answer (start_date end_date : string) : string :=
  ("```json" ++ String (ascii_of_nat 10) EmptyString
   ++ "{" ++ quoted "start_date" ++ ": " ++ quoted start_date ++ ", "
   ++ quoted "end_date" ++ ": " ++ quoted end_date ++ "}"
   ++ String (ascii_of_nat 10) EmptyString ++ "```")%string.

Definition answering (text : option string) : Client :=
  fun _ => LlmResponse text.

Definition failing (e : exn) : Client := fun _ => LlmRaises e.

Definition noon (d : date) : datetime := DateTime d 12 0 0 0.

Definition sample_orders : list Json :=
  [sample_order "a" "locked" "2025-11-01T10:00:00";
   sample_order "b" "pending" "2025-11-01T10:00:00";
   sample_order "c" "locked" "not a timestamp";
   sample_order "d" "locked" "2025-11-01T23:59:59.999999";
   sample_order "e" "locked" "2025-11-02T00:00:00.000000";
   sample_order "f" "locked" ""].

(** ** The session loop ([main], lines 219-265)

    One turn reads a line, runs the four functions above and prints.
    What a turn needs from outside is in [turn_env]: the clock reading
    of [get_sales_data], the answer of the order API, the client, and
    the two readings of today's date.  The lines printed for the user
    are [output]s; the [INFO] lines are left out, as above.  Each of
    [get_date_range_from_llm] and [get_analysis_from_gemini] calls the
    client once, and the loop records that call with its prompt. *)

(** What [input("> ")] gives: a line, Ctrl-C, or end of input. *)
Inductive input_result : Type :=
| Line (user_query : string)
| KeyboardInterrupt
| EOFError.

(** What the last handler of the loop reports: an exception of the
    pipeline, or the [EOFError] of [input]. *)
Inductive failure : Type :=
| Raised (e : exn)
| InputFailed.

Inductive output : Type :=
| Welcome                                  (* the three banner lines *)
| Goodbye                                  (* "Goodbye!" *)
| NoSalesData          (* "I'm sorry, I couldn't retrieve valid sales data." *)
| AnalysisHeader (user_query : string) (start_date end_date : date)
| AnalysisBody (text : string)
| UnexpectedError (f : failure).    (* "[ERROR] An unexpected error ..." *)

Inductive session_event : Type :=
| Printed (o : output)
| Called (p : prompt)
| Did (e : event).

Record turn_env : Type :=
  mkEnv { env_now : datetime;
          env_api : HttpResult;
          env_client : Client;
          env_today : date;
          env_today_in_handler : date }.

(** [str.lower()] on the letters A-Z. *)
Definition lower_ascii (c : ascii) : ascii :=
  let n := nat_of_ascii c in
  if ((65 <=? n) && (n <=? 90))%nat then ascii_of_nat (n + 32) else c.

Fixpoint lower (s : string) : string :=
  match s with
  | EmptyString => EmptyString
  | String c rest => String (lower_ascii c) (lower rest)
  end.

(** [user_query.lower() in ["exit", "quit"]] *)
Definition is_exit_command (user_query : string) : bool :=
  existsb (String.eqb (lower user_query)) ["exit"; "quit"].

(** Line 257: [len(analysis) > 0 and analysis or "No analysis
    available."]; [len(None)] raises. *)
Definition analysis_line (analysis : option string) : Result string :=
  match analysis with
  | None => Raise TypeError
  | Some text =>
      Ok (if (0 <? String.length text)%nat then text
          else "No analysis available.")
  end.

Inductive turn_end : Type := Continue | Break.

Inductive session_state : Type := Ended | WaitingForInput.

Section Session.

Variable isoparse : string -> option parsed_datetime.
Variable json_loads : string -> option Json.

(** Lines 235-258 for a query: what is recorded, the cache left, and
    whether the block ended normally or with an exception. *)
Definition query_turn (user_query : string) (env : turn_env) (c : Cache)
  : list session_event * Cache * Result unit :=
  let o := get_sales_data (env_now env) (env_api env) c in
  let c' := cache_after o in
  let ev0 := map Did (trace o) in
  match returned o with
  | Raise e => (ev0, c', Raise e)
  | Ok None => (ev0 ++ [Printed NoSalesData], c', Ok tt)
  | Ok (Some all_orders) =>
      let ev1 := ev0 ++ [Called (DatePrompt (env_today env) user_query)] in
      match get_date_range_from_llm isoparse json_loads (env_client env)
              user_query (env_today env) (env_today_in_handler env) with
      | Raise e => (ev1, c', Raise e)
      | Ok (start_date, end_date) =>
          let run := filter_orders_by_date isoparse all_orders
                       start_date end_date in
          let ev2 := ev1 ++ map Did (snd run) in
          match fst run with
          | Raise e => (ev2, c', Raise e)
          | Ok filtered_orders =>
              let ev3 :=
                ev2 ++ [Called (AnalysisPrompt user_query filtered_orders)] in
              match get_analysis_from_gemini (env_client env) user_query
                      filtered_orders with
              | Raise e => (ev3, c', Raise e)
              | Ok analysis =>
                  let ev4 :=
                    ev3 ++ [Printed (AnalysisHeader user_query
                                       start_date end_date)] in
                  match analysis_line analysis with
                  | Raise e => (ev4, c', Raise e)
                  | Ok line => (ev4 ++ [Printed (AnalysisBody line)], c', Ok tt)
                  end
              end
          end
      end
  end.

(** One pass through the body of [while True] in which no Ctrl-C
    arrives once the line is read; [pass] below adds the Ctrl-C that
    arrives during a call. *)
Definition turn (inp : input_result) (env : turn_env) (c : Cache)
  : list session_event * Cache * turn_end :=
  match inp with
  | KeyboardInterrupt => ([Printed Goodbye], c, Break)
  | EOFError => ([Printed (UnexpectedError InputFailed)], c, Continue)
  | Line user_query =>
      if is_exit_command user_query then ([Printed Goodbye], c, Break)
      else
        match query_turn user_query env c with
        | (evs, c', Ok _) => (evs, c', Continue)
        | (evs, c', Raise e) =>
            (evs ++ [Printed (UnexpectedError (Raised e))], c', Continue)
        end
  end.

(** The loop on the inputs given so far, without Ctrl-C during a call;
    [WaitingForInput] when the inputs are used up and the loop has not
    been left. *)
Fixpoint main_loop (inputs : list (input_result * turn_env)) (c : Cache)
  : list session_event * Cache * session_state :=
  match inputs with
  | [] => ([], c, WaitingForInput)
  | (inp, env) :: rest =>
      match turn inp env c with
      | (evs, c', Break) => (evs, c', Ended)
      | (evs, c', Continue) =>
          let '(evs', c'', st) := main_loop rest c' in
          (evs ++ evs', c'', st)
      end
  end.

End Session.

(** The inputs on which the loop is left: Ctrl-C, and the commands
    exit and quit. *)
Definition stops (inp : input_result) : bool :=
  match inp with
  | KeyboardInterrupt => true
  | Line user_query => is_exit_command user_query
  | EOFError => false
  end.

(** *** Ctrl-C while a turn is running

    [turn] is a pass through the loop body during which no Ctrl-C
    arrives after the line has been read.  The handler of line 260
    covers the whole [try] block, so a Ctrl-C that arrives while one of
    the three blocking calls of a turn is waiting also leaves the loop:
    [KeyboardInterrupt] is not an [Exception], and passes the handlers
    of [get_sales_data], [get_date_range_from_llm] and
    [get_analysis_from_gemini]. *)

Inductive blocking_call : Type :=
| FetchCall          (* requests.get, line 53 *)
| DateCall           (* generate_content, line 123 *)
| AnalysisCall.      (* generate_content, line 208 *)

Section Interrupts.

Variable isoparse : string -> option parsed_datetime.
Variable json_loads : string -> option Json.

(** The query turn cut by a Ctrl-C during the call [at_call]: what is
    recorded up to the farewell of line 261, and the cache left.
    [None]: the turn does not make that call. *)
Definition interrupted_turn (user_query : string) (env : turn_env)
  (c : Cache) (at_call : blocking_call)
  : option (list session_event * Cache) :=
  let o := get_sales_data (env_now env) (env_api env) c in
  let ev1 :=
    map Did (trace o) ++ [Called (DatePrompt (env_today env) user_query)] in
  match at_call with
  | FetchCall =>
      match cache_hit (env_now env) c with
      | Some _ => None
      | None => Some ([Did EvHttpGet; Printed Goodbye], c)
      end
  | DateCall =>
      match returned o with
      | Ok (Some _) => Some (ev1 ++ [Printed Goodbye], cache_after o)
      | _ => None
      end
  | AnalysisCall =>
      match returned o with
      | Ok (Some all_orders) =>
          match get_date_range_from_llm isoparse json_loads (env_client env)
                  user_query (env_today env) (env_today_in_handler env) with
          | Ok (start_date, end_date) =>
              let run := filter_orders_by_date isoparse all_orders
                           start_date end_date in
              match fst run with
              | Ok filtered_orders =>
                  Some (ev1 ++ map Did (snd run)
                        ++ [Called (AnalysisPrompt user_query filtered_orders);
                            Printed Goodbye],
                        cache_after o)
              | Raise _ => None
              end
          | Raise _ => None
          end
      | _ => None
      end
  end.

(** One pass through the body of [while True], with the call, if any,
    during which Ctrl-C arrives. *)
Definition pass (inp : input_result) (env : turn_env)
  (ctrl_c : option blocking_call) (c : Cache)
  : list session_event * Cache * turn_end :=
  match inp, ctrl_c with
  | Line user_query, Some at_call =>
      if is_exit_command user_query then turn isoparse json_loads inp env c
      else
        match interrupted_turn user_query env c at_call with
        | Some (evs, c') => (evs, c', Break)
        | None => turn isoparse json_loads inp env c
        end
  | _, _ => turn isoparse json_loads inp env c
  end.

(** The loop on the passes given so far. *)
Fixpoint session_loop
  (passes : list (input_result * turn_env * option blocking_call))
  (c : Cache) : list session_event * Cache * session_state :=
  match passes with
  | [] => ([], c, WaitingForInput)
  | (inp, env, ctrl_c) :: rest =>
      match pass inp env ctrl_c c with
      | (evs, c', Break) => (evs, c', Ended)
      | (evs, c', Continue) =>
          let '(evs', c'', st) := session_loop rest c' in
          (evs ++ evs', c'', st)
      end
  end.

(** [main()], started with the cache of process start. *)
Definition main
  (passes : list (input_result * turn_env * option blocking_call))
  : list session_event * Cache * session_state :=
  let '(evs, c, st) := session_loop passes _api_cache in
  (Printed Welcome :: evs, c, st).

End Interrupts.

(** A pass in which the user asks to leave: exit or quit, or Ctrl-C at
    the prompt or during a call. *)
Definition asks_to_leave
  (p : input_result * turn_env * option blocking_call) : Prop :=
  stops (fst (fst p)) = true \/ snd p <> None.

(** The cache serves the call: a non-empty list younger than
    [CACHE_DURATION]. *)
Definition cache_fresh (now : datetime) (c : Cache) : Prop :=
  exists d ts,
    data c = Some d /\ d <> [] /\ timestamp c = Some ts /\
    datetime_sub now ts < CACHE_DURATION.

(** The backtick does not occur in [s]. *)
Fixpoint no_backtick (s : string) : bool :=
  match s with
  | EmptyString => true
  | String c rest => negb (Ascii.eqb c "`") && no_backtick rest
  end.

Definition today_answer : Client :=
  answering (Some (fenced_answer "2025-11-01" "2025-11-01")).

Definition sample_env (now : datetime) (api : HttpResult) (client : Client)
  : turn_env :=
  mkEnv now api client (date_of now) (date_of now).

(** * Properties *)

(** ** Order cache and fetcher *)

Lemma CACHE_DURATION_micros : CACHE_DURATION = 300000000.
Proof. reflexivity. Qed.

Lemma find_orders_list_spec (body : Json) :
  find_orders_list body = spec_normalize body.
Proof.
  destruct body; reflexivity.
Qed.

Lemma raise_for_status_ok (st : Z) :
  ~ (400 <= st < 600) -> raise_for_status st = Ok tt.
Proof.
  intros H. unfold raise_for_status.
  destruct (400 <=? st) eqn:E1; destruct (st <? 600) eqn:E2; simpl;
    try reflexivity.
  apply Z.leb_le in E1. apply Z.ltb_lt in E2. lia.
Qed.

Lemma raise_for_status_raises (st : Z) :
  400 <= st < 600 -> raise_for_status st = Raise HTTPError.
Proof.
  intros [H1 H2]. unfold raise_for_status.
  apply Z.leb_le in H1. apply Z.ltb_lt in H2. now rewrite H1, H2.
Qed.

Lemma get_sales_data_miss (now : datetime) (api : HttpResult) (c : Cache) :
  cache_hit now c = None ->
  get_sales_data now api c =
  mkOutcome
    (try_except (fst (fetch now api c))
       (fun e => is_RequestException e || is_JSONDecodeError e)
       (fun _ => Ok None))
    (snd (fetch now api c)) [EvHttpGet].
Proof.
  intros H. unfold get_sales_data. rewrite H.
  now destruct (fetch now api c).
Qed.

Lemma cache_hit_some (now : datetime) (c : Cache) (d : list Json) :
  cache_hit now c = Some d ->
  data c = Some d /\ d <> [] /\
  exists ts, timestamp c = Some ts /\ datetime_sub now ts < CACHE_DURATION.
Proof.
  unfold cache_hit. destruct (data c) as [d'|]; [|discriminate].
  destruct (timestamp c) as [ts|]; [|discriminate].
  destruct d' as [|x d']; simpl; [discriminate|].
  destruct (datetime_sub now ts <? CACHE_DURATION) eqn:E; [|discriminate].
  intros [= <-]. repeat split; [discriminate|].
  exists ts. split; [reflexivity|]. now apply Z.ltb_lt.
Qed.

(** The cache after a call is the cache before it, or holds the list
    just returned together with the clock reading of the call. *)
Lemma get_sales_data_cache_cases (now : datetime) (api : HttpResult)
  (c : Cache) :
  (cache_after (get_sales_data now api c) = c) \/
  (exists l, returned (get_sales_data now api c) = Ok (Some l) /\
             cache_after (get_sales_data now api c)
             = mkCache (Some l) (Some now)).
Proof.
  unfold get_sales_data.
  destruct (cache_hit now c) as [d|]; [now left|].
  destruct api as [|st [body|]]; simpl; [now left| |].
  - destruct (raise_for_status st); simpl; [|now left].
    destruct (find_orders_list body) as [l|]; simpl; [|now left].
    right. now exists l.
  - destruct (raise_for_status st); simpl; now left.
Qed.

Lemma get_sales_data_never_raises (now : datetime) (api : HttpResult)
  (c : Cache) :
  exists r, returned (get_sales_data now api c) = Ok r.
Proof.
  unfold get_sales_data.
  destruct (cache_hit now c) as [d|]; [now eexists|].
  destruct api as [|st [body|]]; simpl; [now eexists| |].
  - unfold raise_for_status.
    destruct ((400 <=? st) && (st <? 600)); simpl; [now eexists|].
    destruct (find_orders_list body); simpl; now eexists.
  - unfold raise_for_status.
    destruct ((400 <=? st) && (st <? 600)); simpl; now eexists.
Qed.

(** The case in which the code does what C1 says: while the cache holds
    a non-empty fetched list whose timestamp is less than five minutes
    before the clock reading, the call returns that list, leaves the
    cache as it is and sends no request to the order API. *)
Theorem fresh_nonempty_cache_is_returned (now : datetime) (api : HttpResult)
  (c : Cache) (d : list Json) (ts : datetime) :
  data c = Some d -> d <> [] -> timestamp c = Some ts ->
  datetime_sub now ts < CACHE_DURATION ->
  get_sales_data now api c = mkOutcome (Ok (Some d)) c [].
Proof.
  intros Hd Hne Hts Hlt.
  unfold get_sales_data, cache_hit. rewrite Hd, Hts.
  destruct d as [|x d]; [congruence|]. simpl.
  apply Z.ltb_lt in Hlt. now rewrite Hlt.
Qed.

Lemma fresh_nonempty_cache_is_returned_witness :
  get_sales_data (noon (Date 2025 11 1)) TransportFailure
    (mkCache (Some [JInt 1]) (Some (DateTime (Date 2025 11 1) 11 55 0 1)))
  = mkOutcome (Ok (Some [JInt 1]))
      (mkCache (Some [JInt 1]) (Some (DateTime (Date 2025 11 1) 11 55 0 1)))
      [].
Proof.
  apply (fresh_nonempty_cache_is_returned _ _ _ [JInt 1]
           (DateTime (Date 2025 11 1) 11 55 0 1));
    [reflexivity | discriminate | reflexivity | vm_compute; reflexivity].
Defined.

(** The statement of C1 does not hold of the code for every cached
    list: an empty list fetched one minute ago is in the cache, and the
    call sends a request to the order API again. *)
Lemma empty_cached_list_is_fetched_again :
  ~ (forall now api c d ts,
        data c = Some d -> timestamp c = Some ts ->
        0 <= datetime_sub now ts < CACHE_DURATION ->
        returned (get_sales_data now api c) = Ok (Some d) /\
        trace (get_sales_data now api c) = []).
Proof.
  intros H.
  destruct (H (noon (Date 2025 11 1)) (Response 200 (Some (JList [JInt 1])))
              (mkCache (Some []) (Some (DateTime (Date 2025 11 1) 11 59 0 0)))
              [] (DateTime (Date 2025 11 1) 11 59 0 0)
              eq_refl eq_refl) as [_ Htr].
  - vm_compute. split; [discriminate | reflexivity].
  - vm_compute in Htr. discriminate.
Qed.

(** C1: the code breaks the claim when the fetched list is empty.  A
    200 response with the body [] is fetched, returned and written to
    the cache with the clock reading (lines 86-89, "fetched and cached
    (0 orders)"); yet every later call, however soon and whatever the
    order API would answer, sends a request again, because the test of
    line 46 takes the empty list for no list. *)
Theorem fetched_empty_list_is_cached_but_never_served (now now' : datetime)
  (api' : HttpResult) :
  returned (get_sales_data now (Response 200 (Some (JList []))) _api_cache)
  = Ok (Some []) /\
  cache_after (get_sales_data now (Response 200 (Some (JList []))) _api_cache)
  = mkCache (Some []) (Some now) /\
  trace (get_sales_data now' api'
           (cache_after
              (get_sales_data now (Response 200 (Some (JList [])))
                 _api_cache)))
  = [EvHttpGet].
Proof.
  split; [reflexivity|]. split; [reflexivity|].
  change (cache_after
            (get_sales_data now (Response 200 (Some (JList []))) _api_cache))
    with (mkCache (Some []) (Some now)).
  now rewrite get_sales_data_miss.
Qed.

(** C3: on a cache miss and a 2xx response whose body decodes, the list
    used is the body itself when it is a list, the value under the first
    of the keys data, results, orders that holds a list when the body is
    a dict, and otherwise the call returns None and leaves the cache. *)
Theorem fetch_normalizes_body (now : datetime) (c : Cache) (st : Z)
  (body : Json) :
  cache_hit now c = None -> 200 <= st < 300 ->
  match spec_normalize body with
  | Some l =>
      returned (get_sales_data now (Response st (Some body)) c) = Ok (Some l)
      /\ cache_after (get_sales_data now (Response st (Some body)) c)
         = mkCache (Some l) (Some now)
  | None =>
      returned (get_sales_data now (Response st (Some body)) c) = Ok None
      /\ cache_after (get_sales_data now (Response st (Some body)) c) = c
  end.
Proof.
  intros Hmiss Hst. rewrite (get_sales_data_miss _ _ _ Hmiss). simpl.
  rewrite raise_for_status_ok by lia.
  rewrite <- (find_orders_list_spec body).
  destruct (find_orders_list body); simpl; split; reflexivity.
Qed.

Lemma fetch_normalizes_body_witness :
  returned (get_sales_data (noon (Date 2025 11 1))
              (Response 200 (Some (JDict [("results", JList [JInt 1; JInt 2])])))
              _api_cache) = Ok (Some [JInt 1; JInt 2])
  /\ cache_after (get_sales_data (noon (Date 2025 11 1))
              (Response 200 (Some (JDict [("results", JList [JInt 1; JInt 2])])))
              _api_cache)
     = mkCache (Some [JInt 1; JInt 2]) (Some (noon (Date 2025 11 1))).
Proof.
  apply (fetch_normalizes_body (noon (Date 2025 11 1)) _api_cache 200
           (JDict [("results", JList [JInt 1; JInt 2])]));
    [reflexivity | lia].
Defined.

(** The three envelopes of the specification's example. *)
Example envelope_examples (o1 o2 : Json) :
  spec_normalize (JDict [("results", JList [o1; o2])]) = Some [o1; o2] /\
  spec_normalize (JList [o1; o2]) = Some [o1; o2] /\
  spec_normalize (JDict [("foo", JList [o1])]) = None.
Proof. repeat split. Qed.

(** C6, as amended: on a cache miss, when the request fails in
    transport, the status is a 4xx or 5xx one, or the body is not JSON,
    the call returns None and both cache fields are as before. *)
Theorem failed_request_leaves_cache (now : datetime) (api : HttpResult)
  (c : Cache) :
  cache_hit now c = None -> request_fails api ->
  returned (get_sales_data now api c) = Ok None /\
  cache_after (get_sales_data now api c) = c.
Proof.
  intros Hmiss Hf. rewrite (get_sales_data_miss _ _ _ Hmiss).
  destruct Hf as [|st body Hst|st]; simpl.
  - now split.
  - rewrite raise_for_status_raises by assumption. now split.
  - destruct (raise_for_status st) as [[]|e] eqn:E; simpl; [now split|].
    unfold raise_for_status in E.
    destruct ((400 <=? st) && (st <? 600)); inversion E. now split.
Qed.

Lemma failed_request_leaves_cache_witness :
  returned (get_sales_data (noon (Date 2025 11 1)) (Response 503 None)
              _api_cache) = Ok None /\
  cache_after (get_sales_data (noon (Date 2025 11 1)) (Response 503 None)
                 _api_cache) = _api_cache.
Proof.
  apply (failed_request_leaves_cache (noon (Date 2025 11 1))
           (Response 503 None) _api_cache);
    [reflexivity | apply fails_status; lia].
Defined.

(** C6 as stated fails for a status outside 2xx that raise_for_status
    lets through: a 300 response with a JSON list is returned and
    cached. *)
Lemma status_300_body_is_cached :
  ~ (forall now c st body,
        cache_hit now c = None -> ~ (200 <= st < 300) ->
        returned (get_sales_data now (Response st body) c) = Ok None /\
        cache_after (get_sales_data now (Response st body) c) = c).
Proof.
  intros H.
  destruct (H (noon (Date 2025 11 1)) _api_cache 300
              (Some (JList [JInt 1])) eq_refl) as [Hr _]; [lia|].
  vm_compute in Hr. discriminate.
Qed.

(** C8: the cache at start has both fields absent; every call keeps
    "data present iff timestamp present"; a successful fetch (cache not
    hit, a status that is not rejected, a body in which a list is
    found) returns the list and overwrites both fields together, data
    with the list and timestamp with the clock reading of the call; no
    call changes the cache in any other way; a call that returns None
    changes neither field. *)
Theorem cache_invariant_preserved :
  _api_cache = mkCache None None /\
  cache_invariant _api_cache /\
  forall now api c,
    (cache_invariant c -> cache_invariant (cache_after (get_sales_data now api c)))
    /\ (forall st body l,
          cache_hit now c = None -> api = Response st (Some body) ->
          ~ (400 <= st < 600) -> spec_normalize body = Some l ->
          returned (get_sales_data now api c) = Ok (Some l) /\
          cache_after (get_sales_data now api c)
          = mkCache (Some l) (Some now))
    /\ (cache_after (get_sales_data now api c) = c \/
        exists l, returned (get_sales_data now api c) = Ok (Some l) /\
                  cache_after (get_sales_data now api c)
                  = mkCache (Some l) (Some now))
    /\ (returned (get_sales_data now api c) = Ok None ->
        cache_after (get_sales_data now api c) = c).
Proof.
  split; [reflexivity|]. split; [unfold cache_invariant; simpl; tauto|].
  intros now api c.
  pose proof (get_sales_data_cache_cases now api c) as Hc.
  split; [|split; [|split]].
  - destruct Hc as [-> | (l & _ & ->)]; [easy|].
    intros _. unfold cache_invariant; simpl. split; discriminate.
  - intros st body l Hmiss -> Hst Hl.
    rewrite (get_sales_data_miss _ _ _ Hmiss). simpl.
    rewrite raise_for_status_ok by assumption.
    rewrite <- (find_orders_list_spec body) in Hl. rewrite Hl.
    now split.
  - exact Hc.
  - intros Hnone. destruct Hc as [Hc | (l & Hr & _)]; [exact Hc|].
    rewrite Hr in Hnone. discriminate.
Qed.

Lemma cache_invariant_preserved_witness :
  cache_after (get_sales_data (noon (Date 2025 11 1))
                 (Response 200 (Some (JDict [("data", JList [JInt 1])])))
                 (mkCache (Some [JInt 0])
                    (Some (DateTime (Date 2025 11 1) 11 0 0 0))))
  = mkCache (Some [JInt 1]) (Some (noon (Date 2025 11 1)))
  /\ cache_invariant
       (cache_after (get_sales_data (noon (Date 2025 11 1))
                       (Response 200 (Some (JList []))) _api_cache)).
Proof.
  destruct cache_invariant_preserved as (_ & Hinit & Hstep). split.
  - destruct (Hstep (noon (Date 2025 11 1))
                (Response 200 (Some (JDict [("data", JList [JInt 1])])))
                (mkCache (Some [JInt 0])
                   (Some (DateTime (Date 2025 11 1) 11 0 0 0))))
      as (_ & Hfetch & _).
    apply (Hfetch 200 (JDict [("data", JList [JInt 1])]) [JInt 1]);
      [reflexivity | reflexivity | lia | reflexivity].
  - destruct (Hstep (noon (Date 2025 11 1)) (Response 200 (Some (JList [])))
                _api_cache) as (Hinv & _).
    exact (Hinv Hinit).
Defined.

(** ** Calendar arithmetic: the order of naive datetimes and the number
    of microseconds between them *)

Lemma is_leap_cases (y : Z) :
  (is_leap y = true /\ y mod 4 = 0 /\ (y mod 100 <> 0 \/ y mod 400 = 0)) \/
  (is_leap y = false /\ (y mod 4 <> 0 \/ (y mod 100 = 0 /\ y mod 400 <> 0))).
Proof.
  unfold is_leap.
  destruct (Z.eqb_spec (y mod 4) 0), (Z.eqb_spec (y mod 100) 0),
    (Z.eqb_spec (y mod 400) 0); simpl; intuition lia.
Qed.

Lemma days_before_year_succ (y : Z) :
  days_before_year (y + 1)
  = days_before_year y + 365 + (if is_leap y then 1 else 0).
Proof.
  unfold days_before_year. replace (y + 1 - 1) with y by lia. cbv zeta.
  destruct (is_leap_cases y) as [(-> & H)|(-> & H)];
    Z.div_mod_to_equations; lia.
Qed.

Lemma days_before_year_mono (y y' : Z) :
  y <= y' -> days_before_year y <= days_before_year y'.
Proof.
  intros H. unfold days_before_year. cbv zeta.
  Z.div_mod_to_equations. lia.
Qed.

Lemma month_cases (m : Z) :
  1 <= m <= 12 ->
  m = 1 \/ m = 2 \/ m = 3 \/ m = 4 \/ m = 5 \/ m = 6 \/
  m = 7 \/ m = 8 \/ m = 9 \/ m = 10 \/ m = 11 \/ m = 12.
Proof. lia. Qed.

Ltac by_month H :=
  destruct (month_cases _ H) as [?|[?|[?|[?|[?|[?|[?|[?|[?|[?|[?|?]]]]]]]]]]];
  subst.

Lemma month_span (y m : Z) :
  1 <= m <= 12 ->
  0 <= days_before_month y m /\
  days_before_month y m + days_in_month y m
  <= 365 + (if is_leap y then 1 else 0).
Proof.
  intros Hm. unfold days_before_month, days_in_month.
  by_month Hm; destruct (is_leap y); vm_compute; split; discriminate.
Qed.

Lemma days_before_month_next (y m m' : Z) :
  1 <= m <= 12 -> 1 <= m' <= 12 -> m < m' ->
  days_before_month y m + days_in_month y m <= days_before_month y m'.
Proof.
  intros Hm Hm' Hlt. unfold days_before_month, days_in_month.
  by_month Hm; by_month Hm'; try lia; destruct (is_leap y); vm_compute;
    discriminate.
Qed.

(** The day of the year of a valid date lies in [1, 365 or 366]. *)
Lemma day_of_year_bounds (y m d : Z) :
  1 <= m <= 12 -> 1 <= d <= days_in_month y m ->
  1 <= days_before_month y m + d <= 365 + (if is_leap y then 1 else 0).
Proof.
  intros Hm Hd. pose proof (month_span y m Hm). lia.
Qed.

Lemma lex_Lt (c1 c2 : comparison) :
  lex c1 c2 = Lt <-> c1 = Lt \/ (c1 = Eq /\ c2 = Lt).
Proof. destruct c1, c2; simpl; intuition congruence. Qed.

Lemma lex_Eq (c1 c2 : comparison) :
  lex c1 c2 = Eq <-> c1 = Eq /\ c2 = Eq.
Proof. destruct c1, c2; simpl; intuition congruence. Qed.

Lemma toordinal_lt (a b : date) :
  valid_date a -> valid_date b -> date_cmp a b = Lt ->
  toordinal a < toordinal b.
Proof.
  intros (Hya & Hma & Hda) (Hyb & Hmb & Hdb) Hc.
  unfold date_cmp in Hc. rewrite !lex_Lt, ?lex_Eq in Hc.
  rewrite !Z.compare_lt_iff, ?Z.compare_eq_iff in Hc.
  unfold toordinal.
  pose proof (day_of_year_bounds _ _ _ Hma Hda) as Ba.
  pose proof (day_of_year_bounds _ _ _ Hmb Hdb) as Bb.
  destruct Hc as [Hy | (Hy & [Hm | (Hm & Hd)])].
  - pose proof (days_before_year_succ (year a)) as Hs.
    pose proof (days_before_year_mono (year a + 1) (year b)) as Hmono.
    lia.
  - rewrite Hy in *.
    pose proof (days_before_month_next (year b) (month a) (month b)
                  Hma Hmb Hm) as Hn.
    lia.
  - rewrite Hy, Hm in *. lia.
Qed.

Lemma date_cmp_Eq (a b : date) : date_cmp a b = Eq -> a = b.
Proof.
  unfold date_cmp. rewrite !lex_Eq, !Z.compare_eq_iff.
  destruct a, b; simpl. intros (-> & -> & ->). reflexivity.
Qed.

Lemma datetime_leb_to_micros (a b : datetime) :
  valid_datetime a -> valid_datetime b -> datetime_leb a b = true ->
  to_micros a <= to_micros b.
Proof.
  intros (Hda & Hha & Hma & Hsa & Hua) (Hdb & Hhb & Hmb & Hsb & Hub).
  unfold datetime_leb.
  destruct (datetime_cmp a b) eqn:Hc; try discriminate; intros _.
  - unfold datetime_cmp in Hc. rewrite !lex_Eq, !Z.compare_eq_iff in Hc.
    destruct Hc as (Hd & Hh & Hm & Hs & Hu).
    apply date_cmp_Eq in Hd.
    unfold to_micros, seconds_of_day. rewrite Hd, Hh, Hm, Hs, Hu. lia.
  - unfold datetime_cmp in Hc.
    rewrite !lex_Lt, ?lex_Eq, !Z.compare_lt_iff, ?Z.compare_eq_iff in Hc.
    unfold to_micros, seconds_of_day, timedelta_of.
    destruct Hc as [Hd | (Hd & Hrest)].
    + pose proof (toordinal_lt _ _ Hda Hdb Hd). lia.
    + apply date_cmp_Eq in Hd. rewrite Hd. lia.
Qed.

Lemma datetime_leb_refl (a : datetime) : datetime_leb a a = true.
Proof.
  unfold datetime_leb, datetime_cmp, date_cmp.
  now rewrite !Z.compare_refl.
Qed.

(** Start of the first day is not after the end of the last day exactly
    when the range of dates is not inverted. *)
Lemma day_range_leb (start_date end_date : date) :
  datetime_leb (combine start_date time_min) (combine end_date time_max)
  = date_leb start_date end_date.
Proof.
  unfold datetime_leb, date_leb, datetime_cmp, combine; simpl.
  destruct (date_cmp start_date end_date); reflexivity.
Qed.

Lemma valid_end_of_day (d : date) :
  valid_date d -> valid_datetime (combine d time_max).
Proof. intros H. unfold valid_datetime, combine; simpl. repeat split; try apply H; lia. Qed.

(** ** Order filter *)

Section FilterProperties.

Variable isoparse : string -> option parsed_datetime.
Variables start_dt end_dt : datetime.

Local Abbreviation body := (loop_body isoparse start_dt end_dt).
Local Abbreviation loop := (filter_loop isoparse start_dt end_dt).
Local Abbreviation kept := (appended isoparse start_dt end_dt).

Lemma loop_body_order (d : list (string * Json)) :
  exists keep evs, body (JDict d) = (Ok keep, evs).
Proof.
  unfold loop_body, order_locked, order_try; simpl.
  destruct (json_eq_str (dict_get d "state") "locked"); [|now eexists; eexists].
  destruct (negb (truthy (dict_get d "createdTime"))); [now eexists; eexists|].
  destruct (isoparse_value isoparse (dict_get d "createdTime")) as [p|e];
    simpl; [|now eexists; eexists].
  destruct p as [dt|dt off]; simpl; [|now eexists; eexists].
  destruct (datetime_leb start_dt dt); now eexists; eexists.
Qed.

(** The list returned does not depend on the calls recorded so far. *)
Lemma filter_loop_result_any_trace (orders acc : list Json)
  (tr tr' : list event) :
  fst (loop orders acc tr) = fst (loop orders acc tr').
Proof.
  revert acc tr tr'. induction orders as [|o rest IH]; intros; simpl.
  - reflexivity.
  - destruct (body o) as [[[|]|e] evs]; simpl; auto.
Qed.

(** An iteration that appends nothing and makes no call leaves no
    mark on the run. *)
Lemma filter_loop_silent (pre post acc : list Json) (o : Json)
  (tr : list event) :
  body o = (Ok false, []) ->
  loop (pre ++ o :: post) acc tr = loop (pre ++ post) acc tr.
Proof.
  intros Ho. revert acc tr. induction pre as [|x pre IH]; intros; simpl.
  - rewrite Ho. now rewrite app_nil_r.
  - destruct (body x) as [[[|]|e] evs]; auto.
Qed.

(** An iteration that appends nothing leaves the result as it is. *)
Lemma filter_loop_dropped (pre post acc : list Json) (o : Json)
  (tr : list event) (evs : list event) :
  body o = (Ok false, evs) ->
  fst (loop (pre ++ o :: post) acc tr) = fst (loop (pre ++ post) acc tr).
Proof.
  intros Ho. revert acc tr. induction pre as [|x pre IH]; intros; simpl.
  - rewrite Ho. apply filter_loop_result_any_trace.
  - destruct (body x) as [[[|]|e] evs']; auto.
Qed.

(** On order records the loop is a stable filter. *)
Lemma filter_loop_orders (orders acc : list Json) (tr : list event) :
  Forall is_order orders ->
  fst (loop orders acc tr) = Ok (acc ++ filter kept orders).
Proof.
  intros H. revert acc tr.
  induction H as [|o rest Ho _ IH]; intros; simpl.
  - now rewrite app_nil_r.
  - destruct o as [| | | | | |d]; try contradiction.
    unfold kept at 1.
    destruct (loop_body_order d) as (keep & evs & E). rewrite E. simpl.
    destruct keep.
    + rewrite IH. now rewrite <- app_assoc.
    + apply IH.
Qed.

Lemma loop_body_events (o : Json) :
  Forall sound_event (snd (body o)).
Proof.
  unfold loop_body, order_locked, order_try.
  destruct (method_get o "state") as [st|e]; simpl; [|constructor].
  destruct (json_eq_str st "locked"); [|constructor].
  destruct (method_get o "createdTime") as [c|e]; simpl.
  - destruct (truthy c) eqn:T; simpl; [|constructor].
    destruct (_ <- isoparse_value isoparse c ;; _) as [k|e]; simpl.
    + repeat constructor. exact T.
    + destruct (method_get o "orderId"); simpl; repeat constructor; exact T.
  - destruct (method_get o "orderId"); simpl; repeat constructor.
Qed.

Lemma filter_loop_events (orders acc : list Json) (tr : list event) :
  Forall sound_event tr -> Forall sound_event (snd (loop orders acc tr)).
Proof.
  revert acc tr. induction orders as [|o rest IH]; intros acc tr Htr; simpl.
  - exact Htr.
  - pose proof (loop_body_events o) as Ho.
    destruct (body o) as [[[|]|e] evs]; simpl in *;
      try apply IH; apply Forall_app; now split.
Qed.

End FilterProperties.

Section FilterClaims.

Variable isoparse : string -> option parsed_datetime.

Lemma filter_orders_by_date_loop (all_orders : list Json)
  (start_date end_date : date) :
  filter_orders_by_date isoparse all_orders start_date end_date
  = filter_loop isoparse (combine start_date time_min)
      (combine end_date time_max) all_orders [] [].
Proof. now destruct all_orders. Qed.

Lemma json_eq_str_get (d : list (string * Json)) :
  json_eq_str (dict_get d "state") "locked" = state_is_locked (JDict d).
Proof.
  unfold dict_get, state_is_locked.
  destruct (dict_lookup d "state") as [[]|]; reflexivity.
Qed.

(** What the code appends is what the specification's wording includes,
    given that the parser rejects the empty string. *)
Lemma appended_spec (lo hi : datetime) (d : list (string * Json)) :
  isoparse "" = None ->
  appended isoparse lo hi (JDict d)
  = state_is_locked (JDict d) &&
    match parsed_created_time isoparse (JDict d) with
    | Some p => in_range lo hi p
    | None => false
    end.
Proof.
  intros Hempty. unfold appended, loop_body. simpl method_get. cbv iota.
  rewrite json_eq_str_get.
  destruct (state_is_locked (JDict d)); [|reflexivity].
  unfold order_locked, order_try, parsed_created_time, method_get, dict_get.
  destruct (dict_lookup d "createdTime") as [v|]; [|reflexivity].
  destruct v as [| b | n | q | s | l | e]; simpl;
    try reflexivity;
    try (destruct b; reflexivity);
    try (destruct (n =? 0); reflexivity);
    try (destruct (Qnum q =? 0); reflexivity);
    try (destruct l; reflexivity);
    try (destruct e; reflexivity).
  destruct (String.eqb_spec s ""); simpl.
  - subst. now rewrite Hempty.
  - destruct (isoparse s) as [[dt|dt off]|]; simpl; try reflexivity.
    destruct (datetime_leb lo dt), (datetime_leb dt hi); reflexivity.
Qed.

(** An order record whose createdTime is missing or does not parse is
    not appended, and the iteration ends normally. *)
Lemma loop_body_malformed (lo hi : datetime) (o : Json) :
  is_order o -> parsed_created_time isoparse o = None ->
  exists evs, loop_body isoparse lo hi o = (Ok false, evs).
Proof.
  destruct o as [| | | | | |d]; try contradiction. intros _.
  unfold loop_body, order_locked, order_try, parsed_created_time,
    method_get, dict_get.
  destruct (json_eq_str _ "locked"); [|now eexists].
  destruct (dict_lookup d "createdTime") as [v|]; [|now eexists].
  destruct v as [| b | n | q | s | l | e]; simpl; intros H;
    try (now eexists);
    try (destruct b; now eexists);
    try (destruct (n =? 0); now eexists);
    try (destruct (Qnum q =? 0); now eexists);
    try (destruct l; now eexists);
    try (destruct e; now eexists).
  destruct (s =? "")%string; simpl; [now eexists|].
  rewrite H. now eexists.
Qed.

(** An order record without createdTime, or with the empty string
    there, ends its iteration without a call and without a warning. *)
Lemma loop_body_no_created_time (lo hi : datetime)
  (d : list (string * Json)) :
  dict_lookup d "createdTime" = None \/
  dict_lookup d "createdTime" = Some (JStr "") ->
  loop_body isoparse lo hi (JDict d) = (Ok false, []).
Proof.
  intros H. unfold loop_body, order_locked, order_try, method_get, dict_get.
  destruct (json_eq_str _ "locked"); [|reflexivity].
  destruct H as [-> | ->]; reflexivity.
Qed.

Lemma dict_lookup_del (d : list (string * Json)) (key : string) :
  dict_lookup (dict_del d key) key = None.
Proof.
  induction d as [|[k v] d IH]; simpl; [reflexivity|].
  destruct (String.eqb_spec k key); simpl; [exact IH|].
  destruct (String.eqb_spec k key); [contradiction|exact IH].
Qed.

Lemma dict_lookup_del_other (d : list (string * Json)) (key key' : string) :
  key' <> key -> dict_lookup (dict_del d key) key' = dict_lookup d key'.
Proof.
  intros Hne. induction d as [|[k v] d IH]; simpl; [reflexivity|].
  destruct (String.eqb_spec k key); simpl.
  - subst. destruct (String.eqb_spec key key'); [congruence|exact IH].
  - now rewrite IH.
Qed.

(** C2: on a list of order records the filter returns, in input order,
    exactly the orders whose state is "locked" and whose parsed
    createdTime lies in [start_date 00:00:00, end_date 23:59:59.999999]
    (an aware datetime, which cannot be compared with the naive ends,
    is not in it); a locked order created at the last instant of
    end_date is returned when the range is not inverted, and an order
    created one microsecond later is not returned. *)
Theorem filter_returns_locked_in_range (all_orders : list Json)
  (start_date end_date : date) :
  isoparse "" = None -> Forall is_order all_orders ->
  exists l,
    fst (filter_orders_by_date isoparse all_orders start_date end_date) = Ok l
    /\ l = filter (spec_included isoparse start_date end_date) all_orders
    /\ (forall o,
          In o all_orders -> state_is_locked o = true ->
          parsed_created_time isoparse o
          = Some (Naive (combine end_date time_max)) ->
          date_leb start_date end_date = true -> In o l)
    /\ (forall o dt,
          parsed_created_time isoparse o = Some (Naive dt) ->
          valid_date end_date -> valid_datetime dt ->
          to_micros dt = to_micros (combine end_date time_max) + 1 ->
          ~ In o l).
Proof.
  intros Hempty Hall.
  exists (filter (spec_included isoparse start_date end_date) all_orders).
  split; [|split; [reflexivity|split]].
  - rewrite filter_orders_by_date_loop, filter_loop_orders by assumption.
    simpl. f_equal. apply filter_ext_in. intros o Ho.
    rewrite Forall_forall in Hall. specialize (Hall o Ho).
    destruct o as [| | | | | |d]; try contradiction.
    now apply appended_spec.
  - intros o Hin Hlocked Hparsed Hrange.
    apply filter_In. split; [exact Hin|].
    unfold spec_included. rewrite Hlocked, Hparsed. simpl.
    now rewrite day_range_leb, Hrange, datetime_leb_refl.
  - intros o dt Hparsed Hve Hvdt Hnext Hin.
    apply filter_In in Hin. destruct Hin as [_ Hinc].
    unfold spec_included in Hinc. rewrite Hparsed in Hinc.
    apply andb_prop in Hinc. destruct Hinc as [_ Hinc]. simpl in Hinc.
    apply andb_prop in Hinc. destruct Hinc as [_ Hle].
    apply datetime_leb_to_micros in Hle;
      [lia | exact Hvdt | now apply valid_end_of_day].
Qed.

(** C7, as amended: on a list whose elements are all JSON objects the
    filter returns a list and raises nothing; an element of it whose
    createdTime is missing or does not parse is not in the result, and
    the result is that of the list without this element, so the orders
    after it are processed all the same. *)
Theorem malformed_orders_are_skipped (all_orders : list Json)
  (start_date end_date : date) :
  Forall is_order all_orders ->
  (exists l,
      fst (filter_orders_by_date isoparse all_orders start_date end_date)
      = Ok l) /\
  (forall pre o post,
      all_orders = pre ++ o :: post ->
      parsed_created_time isoparse o = None ->
      (forall l,
          fst (filter_orders_by_date isoparse all_orders start_date end_date)
          = Ok l -> ~ In o l) /\
      fst (filter_orders_by_date isoparse all_orders start_date end_date)
      = fst (filter_orders_by_date isoparse (pre ++ post)
               start_date end_date)).
Proof.
  intros Hall. split.
  - rewrite filter_orders_by_date_loop, filter_loop_orders by assumption.
    now eexists.
  - intros pre o post -> Hnone.
    assert (Ho : is_order o).
    { rewrite Forall_forall in Hall. apply Hall, in_elt. }
    destruct (loop_body_malformed (combine start_date time_min)
                (combine end_date time_max) o Ho Hnone) as [evs Hbody].
    split.
    + intros l. rewrite filter_orders_by_date_loop, filter_loop_orders
        by assumption.
      intros [= <-] Hin. simpl in Hin. apply filter_In in Hin.
      destruct Hin as [_ Hin]. unfold appended in Hin.
      rewrite Hbody in Hin. discriminate.
    + rewrite !filter_orders_by_date_loop.
      now apply filter_loop_dropped with (evs := evs).
Qed.

(** C10: an order whose createdTime is the empty string is treated like
    the same order without the field: the run (list returned and calls
    made) is the same, it is the run of the list without the order, and
    the parser is never called on the empty string. *)
Theorem empty_created_time_is_missing (pre post : list Json)
  (d : list (string * Json)) (start_date end_date : date) :
  dict_lookup d "createdTime" = Some (JStr "") ->
  filter_orders_by_date isoparse (pre ++ JDict d :: post) start_date end_date
  = filter_orders_by_date isoparse
      (pre ++ JDict (dict_del d "createdTime") :: post) start_date end_date
  /\ filter_orders_by_date isoparse (pre ++ JDict d :: post)
       start_date end_date
     = filter_orders_by_date isoparse (pre ++ post) start_date end_date
  /\ ~ In (EvIsoparse (JStr ""))
         (snd (filter_orders_by_date isoparse (pre ++ JDict d :: post)
                 start_date end_date)).
Proof.
  intros Hd. rewrite !filter_orders_by_date_loop.
  assert (E : forall lo hi acc tr,
             filter_loop isoparse lo hi (pre ++ JDict d :: post) acc tr
             = filter_loop isoparse lo hi (pre ++ post) acc tr).
  { intros. apply filter_loop_silent, loop_body_no_created_time. now right. }
  split; [|split].
  - rewrite E. symmetry.
    apply filter_loop_silent, loop_body_no_created_time. left.
    apply dict_lookup_del.
  - apply E.
  - intros Hin.
    pose proof (filter_loop_events isoparse (combine start_date time_min)
                  (combine end_date time_max) (pre ++ JDict d :: post) [] []
                  (Forall_nil _)) as Hev.
    rewrite Forall_forall in Hev. specialize (Hev _ Hin). discriminate.
Qed.

End FilterClaims.

Lemma filter_returns_locked_in_range_witness :
  fst (filter_orders_by_date iso_fixed_width sample_orders
         (Date 2025 11 1) (Date 2025 11 1))
  = Ok [sample_order "a" "locked" "2025-11-01T10:00:00";
        sample_order "d" "locked" "2025-11-01T23:59:59.999999"].
Proof.
  destruct (filter_returns_locked_in_range iso_fixed_width sample_orders
              (Date 2025 11 1) (Date 2025 11 1))
    as (l & Hl & -> & _);
    [reflexivity | repeat constructor | exact Hl].
Defined.

Lemma malformed_orders_are_skipped_witness :
  fst (filter_orders_by_date iso_fixed_width sample_orders
         (Date 2025 11 1) (Date 2025 11 1))
  = fst (filter_orders_by_date iso_fixed_width
           ([sample_order "a" "locked" "2025-11-01T10:00:00";
             sample_order "b" "pending" "2025-11-01T10:00:00"]
            ++ [sample_order "d" "locked" "2025-11-01T23:59:59.999999";
                sample_order "e" "locked" "2025-11-02T00:00:00.000000";
                sample_order "f" "locked" ""])
           (Date 2025 11 1) (Date 2025 11 1)).
Proof.
  destruct (malformed_orders_are_skipped iso_fixed_width sample_orders
              (Date 2025 11 1) (Date 2025 11 1)) as [_ H];
    [repeat constructor|].
  apply (H _ (sample_order "c" "locked" "not a timestamp") _);
    reflexivity.
Defined.

(** C7 as stated fails: an element that is not a JSON object makes the
    filter raise AttributeError, and the order after it is not
    processed. *)
Lemma non_object_element_aborts_filter :
  ~ (forall (isoparse : string -> option parsed_datetime)
            (all_orders : list Json) (start_date end_date : date),
        exists l,
          fst (filter_orders_by_date isoparse all_orders start_date end_date)
          = Ok l).
Proof.
  intros H.
  destruct (H iso_fixed_width
              [JInt 1; sample_order "a" "locked" "2025-11-01T10:00:00"]
              (Date 2025 11 1) (Date 2025 11 1)) as [l Hl].
  vm_compute in Hl. discriminate.
Qed.

Example non_object_element_raises :
  fst (filter_orders_by_date iso_fixed_width
         [JInt 1; sample_order "a" "locked" "2025-11-01T10:00:00"]
         (Date 2025 11 1) (Date 2025 11 1))
  = Raise AttributeError.
Proof. reflexivity. Qed.

Lemma empty_created_time_is_missing_witness :
  filter_orders_by_date iso_fixed_width
    ([sample_order "a" "locked" "2025-11-01T10:00:00"]
     ++ sample_order "f" "locked" ""
     :: [sample_order "d" "locked" "2025-11-01T23:59:59.999999"])
    (Date 2025 11 1) (Date 2025 11 1)
  = filter_orders_by_date iso_fixed_width
      ([sample_order "a" "locked" "2025-11-01T10:00:00"]
       ++ [sample_order "d" "locked" "2025-11-01T23:59:59.999999"])
      (Date 2025 11 1) (Date 2025 11 1).
Proof.
  apply (empty_created_time_is_missing iso_fixed_width
           [sample_order "a" "locked" "2025-11-01T10:00:00"]
           [sample_order "d" "locked" "2025-11-01T23:59:59.999999"]
           [("orderId", JStr "f"); ("state", JStr "locked");
            ("createdTime", JStr ""); ("total", JInt 906)]
           (Date 2025 11 1) (Date 2025 11 1)).
  reflexivity.
Defined.

(** ** Date range resolver and sales analyst *)

Lemma try_except_Exception {A} (body : Result A) (fallback : A) :
  try_except body is_Exception (fun _ => Ok fallback)
  = match body with Ok a => Ok a | Raise _ => Ok fallback end.
Proof. now destruct body. Qed.

Section ResolverClaims.

Variable isoparse : string -> option parsed_datetime.
Variable json_loads : string -> option Json.

(** Each way of failing makes the [try] block raise. *)
Lemma date_range_try_raises (client : Client) (user_query : string)
  (today : date) :
  resolution_fails isoparse json_loads client user_query today ->
  exists e,
    date_range_try isoparse json_loads client user_query today = Raise e.
Proof.
  unfold date_range_try, generate_content.
  intros [e H | H | text H Hj | text v H Hj Hv | text d key H Hj Hk Hf];
    rewrite H; simpl; try (now eexists); rewrite Hj; simpl.
  - now eexists.
  - destruct v; try discriminate; now eexists.
  - destruct Hk as [-> | ->].
    + revert Hf.
      destruct (dict_lookup d "start_date") as [[]|]; simpl; intros Hf;
        try (now eexists).
      rewrite Hf. now eexists.
    + destruct (dict_lookup d "start_date") as [v|]; simpl; [|now eexists].
      destruct (isoparse_value isoparse v); simpl; [|now eexists].
      revert Hf.
      destruct (dict_lookup d "end_date") as [[]|]; simpl; intros Hf;
        try (now eexists).
      rewrite Hf. now eexists.
Qed.

(** C4: the resolver always returns a pair and raises nothing; when the
    call raises, the text is not the expected JSON structure, or a date
    field is not a date the parser accepts, the pair is (today, today),
    with today as read by the handler. *)
Theorem resolver_falls_back_to_today (client : Client) (user_query : string)
  (today today_in_handler : date) :
  (exists r,
      get_date_range_from_llm isoparse json_loads client user_query
        today today_in_handler = Ok r) /\
  (resolution_fails isoparse json_loads client user_query today ->
   get_date_range_from_llm isoparse json_loads client user_query
     today today_in_handler = Ok (today_in_handler, today_in_handler)).
Proof.
  unfold get_date_range_from_llm. rewrite try_except_Exception. split.
  - destruct (date_range_try _ _ _ _ _); now eexists.
  - intros Hf. apply date_range_try_raises in Hf. destruct Hf as [e ->].
    reflexivity.
Qed.

(** C9: when the text without its code-fence markers decodes to a JSON
    object whose start_date and end_date are strings the parser
    accepts, the resolver returns the dates of the two parsed values. *)
Theorem resolver_returns_parsed_dates (client : Client) (user_query : string)
  (today today_in_handler : date) (text : string)
  (d : list (string * Json)) (s1 s2 : string) (p1 p2 : parsed_datetime) :
  client (DatePrompt today user_query) = LlmResponse (Some text) ->
  json_loads (json_str_of text) = Some (JDict d) ->
  dict_lookup d "start_date" = Some (JStr s1) ->
  dict_lookup d "end_date" = Some (JStr s2) ->
  isoparse s1 = Some p1 -> isoparse s2 = Some p2 ->
  get_date_range_from_llm isoparse json_loads client user_query
    today today_in_handler = Ok (parsed_date p1, parsed_date p2).
Proof.
  intros Hc Hj H1 H2 Hp1 Hp2.
  unfold get_date_range_from_llm, date_range_try, generate_content.
  rewrite Hc. simpl. rewrite Hj. simpl. rewrite H1. simpl. rewrite Hp1.
  simpl. rewrite H2. simpl. rewrite Hp2. reflexivity.
Qed.

End ResolverClaims.

Lemma resolver_falls_back_to_today_witness :
  get_date_range_from_llm iso_fixed_width json_flat_object
    (answering (Some "asdkfj")) "asdkfj" (Date 2025 11 1) (Date 2025 11 2)
  = Ok (Date 2025 11 2, Date 2025 11 2).
Proof.
  apply (resolver_falls_back_to_today iso_fixed_width json_flat_object
           (answering (Some "asdkfj")) "asdkfj" (Date 2025 11 1)
           (Date 2025 11 2)).
  apply not_json with (text := "asdkfj"); reflexivity.
Defined.

Lemma resolver_returns_parsed_dates_witness :
  get_date_range_from_llm iso_fixed_width json_flat_object
    (answering (Some (fenced_answer "2025-11-01" "2025-11-02"))) "today"
    (Date 2025 11 1) (Date 2025 11 1)
  = Ok (Date 2025 11 1, Date 2025 11 2).
Proof.
  apply (resolver_returns_parsed_dates iso_fixed_width json_flat_object
           (answering (Some (fenced_answer "2025-11-01" "2025-11-02")))
           "today" (Date 2025 11 1) (Date 2025 11 1)
           (fenced_answer "2025-11-01" "2025-11-02")
           [("end_date", JStr "2025-11-02"); ("start_date", JStr "2025-11-01")]
           "2025-11-01" "2025-11-02"
           (Naive (combine (Date 2025 11 1) time_min))
           (Naive (combine (Date 2025 11 2) time_min)));
    reflexivity.
Defined.

(** C5: the analyst always returns and raises nothing; when the call
    raises, what it returns is the apology string. *)
Theorem analyst_apologises_on_failure (client : Client) (user_query : string)
  (orders : list Json) :
  apology
  = "I'm sorry, I encountered an error while analyzing the sales data." /\
  (exists r, get_analysis_from_gemini client user_query orders = Ok r) /\
  (forall e,
      client (AnalysisPrompt user_query orders) = LlmRaises e ->
      get_analysis_from_gemini client user_query orders = Ok (Some apology)).
Proof.
  unfold get_analysis_from_gemini. rewrite try_except_Exception.
  unfold generate_content. split; [reflexivity|]. split.
  - destruct (client _); now eexists.
  - now intros e ->.
Qed.

Lemma analyst_apologises_on_failure_witness :
  get_analysis_from_gemini (failing (ClientError "ServerError")) "best sellers?"
    sample_orders = Ok (Some apology).
Proof.
  destruct (analyst_apologises_on_failure (failing (ClientError "ServerError"))
              "best sellers?" sample_orders) as (_ & _ & H).
  apply (H (ClientError "ServerError")). reflexivity.
Defined.

(** * Further properties of the code *)

(** ** Order of naive datetimes *)

Lemma lex_assoc (c1 c2 c3 : comparison) :
  lex (lex c1 c2) c3 = lex c1 (lex c2 c3).
Proof. now destruct c1. Qed.

Lemma lex_trans (x y z : Z) (rxy ryz rxz : comparison) :
  (rxy <> Gt -> ryz <> Gt -> rxz <> Gt) ->
  lex (x ?= y) rxy <> Gt -> lex (y ?= z) ryz <> Gt ->
  lex (x ?= z) rxz <> Gt.
Proof.
  intros Hrest.
  destruct (Z.compare_spec x y), (Z.compare_spec y z),
    (Z.compare_spec x z); simpl; try lia; auto; try discriminate.
Qed.

Lemma datetime_leb_trans (a b c : datetime) :
  datetime_leb a b = true -> datetime_leb b c = true ->
  datetime_leb a c = true.
Proof.
  assert (E : forall x y, datetime_leb x y = true <-> datetime_cmp x y <> Gt).
  { intros x y. unfold datetime_leb.
    destruct (datetime_cmp x y); split; congruence. }
  rewrite !E. unfold datetime_cmp, date_cmp. rewrite !lex_assoc.
  repeat apply lex_trans.
  rewrite !Z.compare_le_iff. lia.
Qed.

(** With the same time of day on both sides the order is that of the
    dates. *)
Lemma combine_leb (a b : date) (t : time) :
  datetime_leb (combine a t) (combine b t) = date_leb a b.
Proof.
  unfold datetime_leb, date_leb, datetime_cmp, combine; simpl.
  rewrite !Z.compare_refl. now destruct (date_cmp a b).
Qed.

(** ** More on the order filter *)

Section FilterFurther.

Variable isoparse : string -> option parsed_datetime.

(** Exactly when an order record is appended, read off the loop body:
    no assumption on the parser is needed, since the empty string never
    reaches it. *)
Lemma appended_true_iff (lo hi : datetime) (d : list (string * Json)) :
  appended isoparse lo hi (JDict d) = true <->
  state_is_locked (JDict d) = true /\
  exists s dt,
    dict_lookup d "createdTime" = Some (JStr s) /\ s <> "" /\
    isoparse s = Some (Naive dt) /\
    datetime_leb lo dt = true /\ datetime_leb dt hi = true.
Proof.
  unfold appended, loop_body. simpl method_get. cbv iota.
  rewrite json_eq_str_get.
  destruct (state_is_locked (JDict d));
    [|split; [discriminate | now intros [? _]]].
  unfold order_locked, order_try, method_get, dict_get.
  destruct (dict_lookup d "createdTime") as [v|];
    [|split; [discriminate | now intros (_ & s & dt & ? & _)]].
  destruct v as [| b | n | q | s | l | e]; simpl;
    try (split; [|now intros (_ & s' & dt & ? & _)]);
    try discriminate;
    try (destruct b; discriminate);
    try (destruct (n =? 0); discriminate);
    try (destruct (Qnum q =? 0); discriminate);
    try (destruct l; discriminate);
    try (destruct e; discriminate).
  destruct (String.eqb_spec s ""); simpl.
  - split; [discriminate|]. intros (_ & s' & dt & [= <-] & Hne & _).
    contradiction.
  - destruct (isoparse s) as [[dt|dt off]|] eqn:Hp; simpl;
      try (split; [discriminate|];
           intros (_ & s' & dt' & [= <-] & _ & Hp' & _); congruence).
    destruct (datetime_leb lo dt) eqn:Hlo, (datetime_leb dt hi) eqn:Hhi;
      simpl; split; try discriminate;
      try (intros (_ & s' & dt' & [= <-] & _ & Hp' & H1 & H2);
           rewrite Hp in Hp'; injection Hp' as <-; congruence).
    intros _. split; [reflexivity|]. exists s, dt. now repeat split.
Qed.

Lemma loop_body_non_object (lo hi : datetime) (o : Json) :
  ~ is_order o -> loop_body isoparse lo hi o = (Raise AttributeError, []).
Proof. destruct o; simpl; intros H; try reflexivity. now destruct H. Qed.

Lemma all_orders_or_not (l : list Json) :
  Forall is_order l \/ ~ Forall is_order l.
Proof.
  induction l as [|o l [IH|IH]].
  - left. constructor.
  - destruct o; try (right; intros H; inversion H; subst; contradiction).
    left. constructor; [exact I|exact IH].
  - right. intros H. inversion H; subst. contradiction.
Qed.

Lemma filter_loop_raises (lo hi : datetime) (orders acc : list Json)
  (tr : list event) :
  ~ Forall is_order orders ->
  fst (filter_loop isoparse lo hi orders acc tr) = Raise AttributeError.
Proof.
  revert acc tr. induction orders as [|o rest IH]; intros acc tr Hn.
  - destruct Hn. constructor.
  - simpl. destruct o as [| | | | | |d];
      try (rewrite loop_body_non_object by (simpl; tauto); reflexivity).
    destruct (loop_body_order isoparse lo hi d) as (keep & evs & ->).
    assert (Hrest : ~ Forall is_order rest).
    { intros H. apply Hn. constructor; [exact I|exact H]. }
    destruct keep; now apply IH.
Qed.

(** The loop started with a list and a trace is the loop started empty,
    with its result and its trace put behind them. *)
Lemma filter_loop_acc (lo hi : datetime) (orders acc : list Json)
  (tr : list event) :
  filter_loop isoparse lo hi orders acc tr
  = (match fst (filter_loop isoparse lo hi orders [] []) with
     | Ok l => Ok (acc ++ l)
     | Raise e => Raise e
     end,
     tr ++ snd (filter_loop isoparse lo hi orders [] [])).
Proof.
  revert acc tr. induction orders as [|o rest IH]; intros acc tr; simpl.
  - now rewrite !app_nil_r.
  - destruct (loop_body isoparse lo hi o) as [[[|]|e] evs]; simpl.
    + rewrite (IH (acc ++ [o])), (IH [o] evs).
      destruct (fst (filter_loop isoparse lo hi rest [] [])); simpl;
        now rewrite <- ?app_assoc.
    + rewrite (IH acc), (IH [] evs).
      destruct (fst (filter_loop isoparse lo hi rest [] [])); simpl;
        now rewrite <- ?app_assoc.
    + reflexivity.
Qed.

Lemma filter_loop_app (lo hi : datetime) (l1 l2 acc : list Json)
  (tr : list event) :
  filter_loop isoparse lo hi (l1 ++ l2) acc tr
  = match filter_loop isoparse lo hi l1 acc tr with
    | (Ok acc', tr') => filter_loop isoparse lo hi l2 acc' tr'
    | (Raise e, tr') => (Raise e, tr')
    end.
Proof.
  revert acc tr. induction l1 as [|o l1 IH]; intros acc tr; simpl.
  - reflexivity.
  - destruct (loop_body isoparse lo hi o) as [[[|]|e] evs]; auto.
Qed.

Lemma filter_idem {A} (f : A -> bool) (l : list A) :
  filter f (filter f l) = filter f l.
Proof.
  induction l as [|x l IH]; simpl; [reflexivity|].
  destruct (f x) eqn:E; simpl; [rewrite E|]; now rewrite ?IH.
Qed.

Lemma filter_none {A} (f : A -> bool) (l : list A) :
  (forall x, In x l -> f x = false) -> filter f l = [].
Proof.
  induction l as [|x l IH]; simpl; intros H; [reflexivity|].
  rewrite (H x) by now left. apply IH. intros y Hy. apply H. now right.
Qed.

Lemma filter_result_objects (all_orders l : list Json)
  (start_date end_date : date) :
  fst (filter_orders_by_date isoparse all_orders start_date end_date) = Ok l ->
  Forall is_order all_orders /\
  l = filter (appended isoparse (combine start_date time_min)
                (combine end_date time_max)) all_orders.
Proof.
  rewrite filter_orders_by_date_loop. intros H.
  destruct (all_orders_or_not all_orders) as [Hall|Hn].
  - split; [exact Hall|].
    rewrite filter_loop_orders in H by assumption. now injection H.
  - rewrite filter_loop_raises in H by assumption. discriminate.
Qed.

End FilterFurther.

Section FilterExtras.

Variable isoparse : string -> option parsed_datetime.

(** X1: the filter returns a list exactly when every element of its
    input is a JSON object; otherwise it raises AttributeError. *)
Theorem filter_returns_iff_all_objects (all_orders : list Json)
  (start_date end_date : date) :
  ((exists l,
       fst (filter_orders_by_date isoparse all_orders start_date end_date)
       = Ok l) <-> Forall is_order all_orders) /\
  (~ Forall is_order all_orders ->
   fst (filter_orders_by_date isoparse all_orders start_date end_date)
   = Raise AttributeError).
Proof.
  split; [split|].
  - intros [l Hl]. now apply filter_result_objects in Hl.
  - intros Hall.
    rewrite filter_orders_by_date_loop, filter_loop_orders by assumption.
    now eexists.
  - intros Hn. rewrite filter_orders_by_date_loop.
    now apply filter_loop_raises.
Qed.

(** X2: every order the filter returns is an element of the input, has
    state "locked", and has a non-empty createdTime string that parses
    to a naive datetime between the start of start_date and the end of
    end_date. *)
Theorem filter_result_is_locked_and_in_range (all_orders l : list Json)
  (start_date end_date : date) :
  fst (filter_orders_by_date isoparse all_orders start_date end_date) = Ok l ->
  Forall (fun o =>
            In o all_orders /\ state_is_locked o = true /\
            exists d s dt,
              o = JDict d /\
              dict_lookup d "createdTime" = Some (JStr s) /\ s <> "" /\
              isoparse s = Some (Naive dt) /\
              datetime_leb (combine start_date time_min) dt = true /\
              datetime_leb dt (combine end_date time_max) = true) l.
Proof.
  intros H. apply filter_result_objects in H. destruct H as [Hall ->].
  apply Forall_forall. intros o Ho. apply filter_In in Ho.
  destruct Ho as [Hin Happ]. split; [exact Hin|].
  rewrite Forall_forall in Hall. specialize (Hall o Hin).
  destruct o as [| | | | | |d]; try contradiction.
  apply appended_true_iff in Happ. destruct Happ as (Hl & s & dt & Hrest).
  split; [exact Hl|]. now exists d, s, dt.
Qed.

(** X3: with end_date before start_date the filter returns the empty
    list for every list of order records. *)
Theorem inverted_range_returns_nothing (all_orders : list Json)
  (start_date end_date : date) :
  date_leb start_date end_date = false -> Forall is_order all_orders ->
  fst (filter_orders_by_date isoparse all_orders start_date end_date) = Ok [].
Proof.
  intros Hinv Hall.
  rewrite filter_orders_by_date_loop, filter_loop_orders by assumption.
  simpl. f_equal. apply filter_none. intros o Ho.
  rewrite Forall_forall in Hall. specialize (Hall o Ho).
  destruct o as [| | | | | |d]; try contradiction.
  destruct (appended _ _ _ _) eqn:E; [|reflexivity].
  apply appended_true_iff in E.
  destruct E as (_ & s & dt & _ & _ & _ & Hlo & Hhi).
  pose proof (datetime_leb_trans _ _ _ Hlo Hhi) as Ht.
  rewrite day_range_leb in Ht. congruence.
Qed.

(** X4: moving start_date back or end_date forward never loses an
    order: on order records, what the narrower range returns is
    returned by the wider one. *)
Theorem wider_range_keeps_orders (all_orders : list Json)
  (start_date end_date start_date' end_date' : date) :
  date_leb start_date' start_date = true ->
  date_leb end_date end_date' = true ->
  Forall is_order all_orders ->
  exists l l',
    fst (filter_orders_by_date isoparse all_orders start_date end_date)
    = Ok l /\
    fst (filter_orders_by_date isoparse all_orders start_date' end_date')
    = Ok l' /\
    incl l l'.
Proof.
  intros Hs He Hall. do 2 eexists.
  rewrite !filter_orders_by_date_loop, !filter_loop_orders by assumption.
  split; [reflexivity|]. split; [reflexivity|]. simpl.
  intros o Ho. apply filter_In in Ho. destruct Ho as [Hin Happ].
  apply filter_In. split; [exact Hin|].
  rewrite Forall_forall in Hall. specialize (Hall o Hin).
  destruct o as [| | | | | |d]; try contradiction.
  apply appended_true_iff in Happ.
  destruct Happ as (Hl & s & dt & Hc & Hne & Hp & Hlo & Hhi).
  apply appended_true_iff. split; [exact Hl|]. exists s, dt.
  repeat split; try assumption.
  - apply datetime_leb_trans with (b := combine start_date time_min);
      [now rewrite combine_leb | exact Hlo].
  - apply datetime_leb_trans with (b := combine end_date time_max);
      [exact Hhi | now rewrite combine_leb].
Qed.

(** X5: filtering a concatenation is filtering the parts: when the
    filter returns on each of two lists, on their concatenation it
    returns the two results one after the other, with the calls and
    warnings of both runs in order. *)
Theorem filter_of_concatenation (l1 l2 r1 r2 : list Json)
  (start_date end_date : date) :
  fst (filter_orders_by_date isoparse l1 start_date end_date) = Ok r1 ->
  fst (filter_orders_by_date isoparse l2 start_date end_date) = Ok r2 ->
  filter_orders_by_date isoparse (l1 ++ l2) start_date end_date
  = (Ok (r1 ++ r2),
     snd (filter_orders_by_date isoparse l1 start_date end_date)
     ++ snd (filter_orders_by_date isoparse l2 start_date end_date)).
Proof.
  rewrite !filter_orders_by_date_loop. intros H1 H2.
  rewrite filter_loop_app.
  destruct (filter_loop isoparse _ _ l1 [] []) as [res1 tr1].
  simpl in H1. subst res1. simpl.
  rewrite filter_loop_acc. now rewrite H2.
Qed.

(** X6: a locked order whose createdTime carries a timezone (the parser
    returns an aware datetime) is never returned, whatever the range:
    the comparison raises, the order is reported in a warning, and the
    result is that of the list without it. *)
Theorem aware_created_time_is_dropped (pre post : list Json)
  (d : list (string * Json)) (s : string) (dt : datetime) (off : Z)
  (start_date end_date : date) :
  state_is_locked (JDict d) = true ->
  dict_lookup d "createdTime" = Some (JStr s) -> s <> "" ->
  isoparse s = Some (Aware dt off) ->
  loop_body isoparse (combine start_date time_min)
    (combine end_date time_max) (JDict d)
  = (Ok false, [EvIsoparse (JStr s); EvWarn (dict_get d "orderId")]) /\
  fst (filter_orders_by_date isoparse (pre ++ JDict d :: post)
         start_date end_date)
  = fst (filter_orders_by_date isoparse (pre ++ post) start_date end_date).
Proof.
  intros Hl Hc Hne Hp.
  assert (E : forall lo hi,
             loop_body isoparse lo hi (JDict d)
             = (Ok false, [EvIsoparse (JStr s); EvWarn (dict_get d "orderId")])).
  { intros lo hi.
    assert (Hg : dict_get d "createdTime" = JStr s)
      by (unfold dict_get; now rewrite Hc).
    unfold loop_body. simpl method_get. cbv iota.
    rewrite json_eq_str_get, Hl.
    unfold order_locked, order_try, method_get. rewrite Hg. simpl.
    destruct (String.eqb_spec s ""); [contradiction|]. simpl.
    now rewrite Hp. }
  split; [apply E|].
  rewrite !filter_orders_by_date_loop.
  eapply filter_loop_dropped, E.
Qed.

(** X7: an order record whose state is not "locked" leaves no mark: its
    createdTime is never parsed, no warning is printed for it, and the
    run is that of the list without it. *)
Theorem unlocked_order_is_invisible (pre post : list Json)
  (d : list (string * Json)) (start_date end_date : date) :
  state_is_locked (JDict d) = false ->
  filter_orders_by_date isoparse (pre ++ JDict d :: post) start_date end_date
  = filter_orders_by_date isoparse (pre ++ post) start_date end_date.
Proof.
  intros Hl. rewrite !filter_orders_by_date_loop.
  apply filter_loop_silent.
  unfold loop_body. simpl method_get. cbv iota.
  now rewrite json_eq_str_get, Hl.
Qed.

(** X8: filtering the returned list again with the same range returns
    it unchanged. *)
Theorem filter_twice_is_filter_once (all_orders l : list Json)
  (start_date end_date : date) :
  fst (filter_orders_by_date isoparse all_orders start_date end_date) = Ok l ->
  fst (filter_orders_by_date isoparse l start_date end_date) = Ok l.
Proof.
  intros H. apply filter_result_objects in H. destruct H as [Hall ->].
  rewrite filter_orders_by_date_loop, filter_loop_orders.
  - simpl. now rewrite filter_idem.
  - apply Forall_forall. intros o Ho. apply filter_In in Ho.
    rewrite Forall_forall in Hall. now apply Hall.
Qed.

End FilterExtras.

Lemma filter_result_is_locked_and_in_range_witness :
  Forall (fun o => In o sample_orders /\ state_is_locked o = true)
    [sample_order "a" "locked" "2025-11-01T10:00:00";
     sample_order "d" "locked" "2025-11-01T23:59:59.999999"].
Proof.
  eapply Forall_impl;
    [|apply (filter_result_is_locked_and_in_range iso_fixed_width
               sample_orders _ (Date 2025 11 1) (Date 2025 11 1));
      reflexivity].
  intros o (H1 & H2 & _). now split.
Defined.

Lemma inverted_range_returns_nothing_witness :
  fst (filter_orders_by_date iso_fixed_width sample_orders
         (Date 2025 11 2) (Date 2025 11 1)) = Ok [].
Proof.
  apply (inverted_range_returns_nothing iso_fixed_width sample_orders
           (Date 2025 11 2) (Date 2025 11 1));
    [reflexivity | repeat constructor].
Defined.

Lemma wider_range_keeps_orders_witness :
  exists l l',
    fst (filter_orders_by_date iso_fixed_width sample_orders
           (Date 2025 11 1) (Date 2025 11 1)) = Ok l /\
    fst (filter_orders_by_date iso_fixed_width sample_orders
           (Date 2025 10 1) (Date 2025 11 2)) = Ok l' /\
    incl l l'.
Proof.
  apply (wider_range_keeps_orders iso_fixed_width sample_orders
           (Date 2025 11 1) (Date 2025 11 1) (Date 2025 10 1)
           (Date 2025 11 2));
    [reflexivity | reflexivity | repeat constructor].
Defined.

Lemma filter_of_concatenation_witness :
  filter_orders_by_date iso_fixed_width
    ([sample_order "a" "locked" "2025-11-01T10:00:00"]
     ++ [sample_order "c" "locked" "not a timestamp";
         sample_order "d" "locked" "2025-11-01T23:59:59.999999"])
    (Date 2025 11 1) (Date 2025 11 1)
  = (Ok ([sample_order "a" "locked" "2025-11-01T10:00:00"]
         ++ [sample_order "d" "locked" "2025-11-01T23:59:59.999999"]),
     [EvIsoparse (JStr "2025-11-01T10:00:00")]
     ++ [EvIsoparse (JStr "not a timestamp"); EvWarn (JStr "c");
         EvIsoparse (JStr "2025-11-01T23:59:59.999999")]).
Proof.
  apply (filter_of_concatenation iso_fixed_width
           [sample_order "a" "locked" "2025-11-01T10:00:00"]
           [sample_order "c" "locked" "not a timestamp";
            sample_order "d" "locked" "2025-11-01T23:59:59.999999"]
           [sample_order "a" "locked" "2025-11-01T10:00:00"]
           [sample_order "d" "locked" "2025-11-01T23:59:59.999999"]
           (Date 2025 11 1) (Date 2025 11 1));
    reflexivity.
Defined.

Lemma aware_created_time_is_dropped_witness :
  fst (filter_orders_by_date iso_fixed_width
         ([sample_order "a" "locked" "2025-11-01T10:00:00"]
          ++ sample_order "z" "locked" "2025-11-01T10:00:00Z" :: [])
         (Date 2025 11 1) (Date 2025 11 1))
  = fst (filter_orders_by_date iso_fixed_width
           ([sample_order "a" "locked" "2025-11-01T10:00:00"] ++ [])
           (Date 2025 11 1) (Date 2025 11 1)).
Proof.
  apply (aware_created_time_is_dropped iso_fixed_width
           [sample_order "a" "locked" "2025-11-01T10:00:00"] []
           [("orderId", JStr "z"); ("state", JStr "locked");
            ("createdTime", JStr "2025-11-01T10:00:00Z"); ("total", JInt 906)]
           "2025-11-01T10:00:00Z"
           (DateTime (Date 2025 11 1) 10 0 0 0) 0
           (Date 2025 11 1) (Date 2025 11 1));
    [reflexivity | reflexivity | discriminate | reflexivity].
Defined.

Lemma unlocked_order_is_invisible_witness :
  filter_orders_by_date iso_fixed_width
    ([sample_order "a" "locked" "2025-11-01T10:00:00"]
     ++ sample_order "b" "pending" "not a timestamp" :: [])
    (Date 2025 11 1) (Date 2025 11 1)
  = filter_orders_by_date iso_fixed_width
      ([sample_order "a" "locked" "2025-11-01T10:00:00"] ++ [])
      (Date 2025 11 1) (Date 2025 11 1).
Proof.
  apply (unlocked_order_is_invisible iso_fixed_width
           [sample_order "a" "locked" "2025-11-01T10:00:00"] []
           [("orderId", JStr "b"); ("state", JStr "pending");
            ("createdTime", JStr "not a timestamp"); ("total", JInt 906)]
           (Date 2025 11 1) (Date 2025 11 1)).
  reflexivity.
Defined.

Lemma filter_twice_is_filter_once_witness :
  fst (filter_orders_by_date iso_fixed_width
         [sample_order "a" "locked" "2025-11-01T10:00:00";
          sample_order "d" "locked" "2025-11-01T23:59:59.999999"]
         (Date 2025 11 1) (Date 2025 11 1))
  = Ok [sample_order "a" "locked" "2025-11-01T10:00:00";
        sample_order "d" "locked" "2025-11-01T23:59:59.999999"].
Proof.
  apply (filter_twice_is_filter_once iso_fixed_width sample_orders _
           (Date 2025 11 1) (Date 2025 11 1)).
  reflexivity.
Defined.

Lemma filter_returns_iff_all_objects_witness :
  fst (filter_orders_by_date iso_fixed_width
         [sample_order "a" "locked" "2025-11-01T10:00:00"; JStr "oops"]
         (Date 2025 11 1) (Date 2025 11 1))
  = Raise AttributeError.
Proof.
  apply (filter_returns_iff_all_objects iso_fixed_width
           [sample_order "a" "locked" "2025-11-01T10:00:00"; JStr "oops"]
           (Date 2025 11 1) (Date 2025 11 1)).
  intros H. inversion H as [|? ? _ H']. inversion H' as [|? ? Hbad _].
  exact Hbad.
Defined.

(** ** More on the cache and the fetcher *)

Lemma cache_hit_fresh (now : datetime) (c : Cache) :
  (exists d, cache_hit now c = Some d) <-> cache_fresh now c.
Proof.
  split.
  - intros [d H]. apply cache_hit_some in H.
    destruct H as (Hd & Hne & ts & Hts & Hlt). now exists d, ts.
  - intros (d & ts & Hd & Hne & Hts & Hlt). exists d.
    unfold cache_hit. rewrite Hd, Hts.
    destruct d as [|x d]; [congruence|]. simpl.
    apply Z.ltb_lt in Hlt. now rewrite Hlt.
Qed.

Lemma cache_hit_none_not_fresh (now : datetime) (c : Cache) :
  cache_hit now c = None <-> ~ cache_fresh now c.
Proof.
  rewrite <- cache_hit_fresh. destruct (cache_hit now c) as [d|].
  - split; [discriminate|]. intros H. destruct H. now exists d.
  - split; [|reflexivity]. intros _ [d H]. discriminate.
Qed.

(** X9: a call sends at most one request to the order API, and sends
    one exactly when the cache does not hold a non-empty list younger
    than five minutes; in particular a list exactly five minutes old is
    fetched again. *)
Theorem one_request_unless_cache_fresh (now : datetime) (api : HttpResult)
  (c : Cache) :
  ((cache_fresh now c /\ trace (get_sales_data now api c) = []) \/
   (~ cache_fresh now c /\ trace (get_sales_data now api c) = [EvHttpGet]))
  /\ (forall ts,
         timestamp c = Some ts -> CACHE_DURATION <= datetime_sub now ts ->
         trace (get_sales_data now api c) = [EvHttpGet]).
Proof.
  assert (Hmiss : cache_hit now c = None ->
                  trace (get_sales_data now api c) = [EvHttpGet]).
  { intros H. now rewrite get_sales_data_miss. }
  split.
  - destruct (cache_hit now c) as [d|] eqn:E.
    + left. split; [apply cache_hit_fresh; now exists d|].
      unfold get_sales_data. now rewrite E.
    + right. split; [now apply cache_hit_none_not_fresh | now apply Hmiss].
  - intros ts Hts Hold. apply Hmiss, cache_hit_none_not_fresh.
    intros (d & ts' & _ & _ & Hts' & Hlt). rewrite Hts in Hts'.
    injection Hts' as <-. lia.
Qed.

Lemma one_request_unless_cache_fresh_witness :
  trace (get_sales_data (noon (Date 2025 11 1)) TransportFailure
           (mkCache (Some [JInt 1])
              (Some (DateTime (Date 2025 11 1) 11 55 0 0))))
  = [EvHttpGet].
Proof.
  destruct (one_request_unless_cache_fresh (noon (Date 2025 11 1))
              TransportFailure
              (mkCache (Some [JInt 1])
                 (Some (DateTime (Date 2025 11 1) 11 55 0 0)))) as [_ H].
  apply (H (DateTime (Date 2025 11 1) 11 55 0 0));
    [reflexivity | vm_compute; discriminate].
Defined.

(** X10: whatever list a call returns is the list the cache holds after
    the call, together with a timestamp. *)
Theorem returned_list_is_the_cached_list (now : datetime) (api : HttpResult)
  (c : Cache) (l : list Json) :
  returned (get_sales_data now api c) = Ok (Some l) ->
  data (cache_after (get_sales_data now api c)) = Some l /\
  exists ts, timestamp (cache_after (get_sales_data now api c)) = Some ts.
Proof.
  unfold get_sales_data. destruct (cache_hit now c) as [d|] eqn:E; simpl.
  - intros [= <-]. apply cache_hit_some in E.
    destruct E as (Hd & _ & ts & Hts & _). split; [exact Hd|now exists ts].
  - destruct api as [|st [body|]]; simpl; try discriminate;
      unfold raise_for_status;
      destruct ((400 <=? st) && (st <? 600)); simpl; try discriminate.
    destruct (find_orders_list body) as [l'|]; simpl; try discriminate.
    intros [= <-]. split; [reflexivity|now exists now].
Qed.

Lemma returned_list_is_the_cached_list_witness :
  data (cache_after
          (get_sales_data (noon (Date 2025 11 1))
             (Response 200 (Some (JDict [("orders", JList [JInt 7])])))
             _api_cache)) = Some [JInt 7].
Proof.
  apply (returned_list_is_the_cached_list (noon (Date 2025 11 1))
           (Response 200 (Some (JDict [("orders", JList [JInt 7])])))
           _api_cache [JInt 7]).
  reflexivity.
Defined.

(** X11: after a call that fetched a non-empty list, a second call less
    than five minutes later returns the same list, sends no request
    whatever the order API would answer, and leaves the timestamp of
    the first call in the cache. *)
Theorem second_call_within_five_minutes (now now' : datetime)
  (api api' : HttpResult) (c : Cache) (l : list Json) :
  trace (get_sales_data now api c) = [EvHttpGet] ->
  returned (get_sales_data now api c) = Ok (Some l) -> l <> [] ->
  datetime_sub now' now < CACHE_DURATION ->
  get_sales_data now' api' (cache_after (get_sales_data now api c))
  = mkOutcome (Ok (Some l)) (mkCache (Some l) (Some now)) [].
Proof.
  intros Htr Hret Hne Hlt.
  assert (Hc : cache_after (get_sales_data now api c)
               = mkCache (Some l) (Some now)).
  { revert Htr Hret. unfold get_sales_data.
    destruct (cache_hit now c); simpl; [discriminate|]. intros _.
    destruct api as [|st [body|]]; simpl; try discriminate;
      unfold raise_for_status;
      destruct ((400 <=? st) && (st <? 600)); simpl; try discriminate.
    destruct (find_orders_list body) as [l'|]; simpl; try discriminate.
    now intros [= <-]. }
  rewrite Hc. unfold get_sales_data, cache_hit. simpl.
  destruct l as [|x l]; [congruence|].
  apply Z.ltb_lt in Hlt. now rewrite Hlt.
Qed.

Lemma second_call_within_five_minutes_witness :
  get_sales_data (DateTime (Date 2025 11 1) 12 4 59 999999) TransportFailure
    (cache_after
       (get_sales_data (noon (Date 2025 11 1))
          (Response 200 (Some (JList [JInt 1]))) _api_cache))
  = mkOutcome (Ok (Some [JInt 1]))
      (mkCache (Some [JInt 1]) (Some (noon (Date 2025 11 1)))) [].
Proof.
  apply (second_call_within_five_minutes (noon (Date 2025 11 1))
           (DateTime (Date 2025 11 1) 12 4 59 999999)
           (Response 200 (Some (JList [JInt 1]))) TransportFailure
           _api_cache [JInt 1]);
    [reflexivity | reflexivity | discriminate | vm_compute; reflexivity].
Defined.

(** ** More on the date range resolver *)

Lemma no_backtick_forallb (s : string) :
  no_backtick s
  = forallb (fun c => negb (Ascii.eqb c "`")) (list_ascii_of_string s).
Proof. induction s as [|c s IH]; simpl; now rewrite ?IH. Qed.

(** What [lstrip_by] returns is the end of its argument. *)
Lemma lstrip_by_suffix (sp2 : ascii -> ascii -> bool)
  (sp3 : ascii -> ascii -> ascii -> bool) (s : string) :
  exists p, s = (p ++ lstrip_by sp2 sp3 s)%string.
Proof.
  assert (G : forall n s, (String.length s <= n)%nat ->
                          exists p, s = (p ++ lstrip_by sp2 sp3 s)%string).
  { induction n as [|n IH]; intros t Hn.
    - destruct t; simpl in Hn; [now exists EmptyString | lia].
    - destruct t as [|c1 r1]; [now exists EmptyString|].
      simpl in Hn. cbn [lstrip_by]. destruct (is_space c1).
      + destruct (IH r1) as [p Hp]; [lia|].
        exists (String c1 p). simpl. now rewrite <- Hp.
      + destruct r1 as [|c2 r2]; [now exists EmptyString|].
        simpl in Hn. destruct (sp2 c1 c2).
        * destruct (IH r2) as [p Hp]; [lia|].
          exists (String c1 (String c2 p)). simpl. now rewrite <- Hp.
        * destruct r2 as [|c3 r3]; [now exists EmptyString|].
          simpl in Hn. destruct (sp3 c1 c2 c3); [|now exists EmptyString].
          destruct (IH r3) as [p Hp]; [lia|].
          exists (String c1 (String c2 (String c3 p))). simpl.
          now rewrite <- Hp. }
  now apply (G (String.length s)).
Qed.

Lemma no_backtick_app (p r : string) :
  no_backtick (p ++ r)%string = true -> no_backtick r = true.
Proof.
  induction p as [|c p IH]; simpl; [trivial|].
  intros H. apply andb_prop in H. now apply IH.
Qed.

Lemma no_backtick_lstrip_by (sp2 : ascii -> ascii -> bool)
  (sp3 : ascii -> ascii -> ascii -> bool) (s : string) :
  no_backtick s = true -> no_backtick (lstrip_by sp2 sp3 s) = true.
Proof.
  destruct (lstrip_by_suffix sp2 sp3 s) as [p Hp]. intros H.
  rewrite Hp in H. now apply no_backtick_app in H.
Qed.

Lemma no_backtick_rev (s : string) :
  no_backtick s = true -> no_backtick (string_rev s) = true.
Proof.
  rewrite !no_backtick_forallb. unfold string_rev.
  rewrite list_ascii_of_string_of_list_ascii, !forallb_forall.
  intros H c Hc. apply H. now apply in_rev.
Qed.

Lemma no_backtick_strip (s : string) :
  no_backtick s = true -> no_backtick (strip s) = true.
Proof.
  intros H. unfold strip, rstrip, lstrip.
  now apply no_backtick_rev, no_backtick_lstrip_by, no_backtick_rev,
    no_backtick_lstrip_by.
Qed.

(** Replacing a marker that starts with a backtick changes nothing in a
    string without backticks. *)
Lemma replace_no_backtick (s old' new : string) :
  no_backtick s = true -> replace s (String "`" old') new = s.
Proof.
  unfold replace. induction s as [|c s IH]; [reflexivity|].
  cbn [replace_from prefix no_backtick].
  intros H. apply andb_prop in H. destruct H as [Hc Hs].
  destruct (ascii_dec "`" c) as [<-|_]; [discriminate|].
  now rewrite IH.
Qed.

(** X12: an answer that contains no backtick reaches json.loads with
    only its leading and trailing whitespace removed. *)
Theorem answer_without_fence_is_only_stripped (text : string) :
  no_backtick text = true -> json_str_of text = strip text.
Proof.
  intros H. apply no_backtick_strip in H. unfold json_str_of.
  change "```json" with (String "`" "``json").
  change "```" with (String "`" "``").
  rewrite (replace_no_backtick (strip text)) by exact H.
  now apply replace_no_backtick.
Qed.

Lemma answer_without_fence_is_only_stripped_witness :
  json_str_of "  {start_date: 2025-11-01}  " = "{start_date: 2025-11-01}".
Proof.
  apply (answer_without_fence_is_only_stripped
           "  {start_date: 2025-11-01}  ").
  reflexivity.
Defined.

Section ResolverExtras.

Variable isoparse : string -> option parsed_datetime.
Variable json_loads : string -> option Json.

(** X13: the resolver returns either the date read by its handler,
    twice, or the dates of the two fields of a JSON object decoded from
    the answer; it never returns anything else. *)
Theorem resolver_result_cases (client : Client) (user_query : string)
  (today today_in_handler : date) :
  get_date_range_from_llm isoparse json_loads client user_query
    today today_in_handler = Ok (today_in_handler, today_in_handler) \/
  exists text d s1 s2 p1 p2,
    client (DatePrompt today user_query) = LlmResponse (Some text) /\
    json_loads (json_str_of text) = Some (JDict d) /\
    dict_lookup d "start_date" = Some (JStr s1) /\
    dict_lookup d "end_date" = Some (JStr s2) /\
    isoparse s1 = Some p1 /\ isoparse s2 = Some p2 /\
    get_date_range_from_llm isoparse json_loads client user_query
      today today_in_handler = Ok (parsed_date p1, parsed_date p2).
Proof.
  unfold get_date_range_from_llm, date_range_try, generate_content.
  destruct (client (DatePrompt today user_query)) as [e|[text|]] eqn:Hc;
    simpl; try (now left).
  destruct (json_loads (json_str_of text)) as [v|] eqn:Hj; simpl;
    [|now left].
  destruct v as [| | | | | |d]; simpl; try (now left).
  destruct (dict_lookup d "start_date") as [v1|] eqn:H1; simpl; [|now left].
  destruct v1 as [| | | |s1| |]; simpl; try (now left).
  destruct (isoparse s1) as [p1|] eqn:Hp1; simpl; [|now left].
  destruct (dict_lookup d "end_date") as [v2|] eqn:H2; simpl; [|now left].
  destruct v2 as [| | | |s2| |]; simpl; try (now left).
  destruct (isoparse s2) as [p2|] eqn:Hp2; simpl; [|now left].
  right. exists text, d, s1, s2, p1, p2. now repeat split.
Qed.

End ResolverExtras.

(** ** The session loop *)

Lemma loop_body_no_request (isoparse : string -> option parsed_datetime)
  (lo hi : datetime) (o : Json) :
  ~ In EvHttpGet (snd (loop_body isoparse lo hi o)).
Proof.
  unfold loop_body, order_locked, order_try.
  destruct (method_get o "state") as [st|e]; simpl; [|tauto].
  destruct (json_eq_str st "locked"); simpl; [|tauto].
  destruct (method_get o "createdTime") as [v|e]; simpl.
  - destruct (negb (truthy v)); simpl; [tauto|].
    destruct (_ <- isoparse_value isoparse v ;; _); simpl.
    + intros [H|[]]; discriminate.
    + destruct (method_get o "orderId"); simpl;
        intros H; repeat (destruct H as [H|H]; try discriminate); exact H.
  - destruct (method_get o "orderId"); simpl;
      intros H; repeat (destruct H as [H|H]; try discriminate); exact H.
Qed.

(** The filter sends no request to the order API. *)
Lemma filter_no_request (isoparse : string -> option parsed_datetime)
  (all_orders : list Json) (start_date end_date : date) :
  ~ In EvHttpGet
      (snd (filter_orders_by_date isoparse all_orders start_date end_date)).
Proof.
  rewrite filter_orders_by_date_loop.
  assert (G : forall orders acc tr,
             ~ In EvHttpGet tr ->
             ~ In EvHttpGet
                 (snd (filter_loop isoparse (combine start_date time_min)
                         (combine end_date time_max) orders acc tr))).
  { induction orders as [|o rest IH]; intros acc tr Htr; simpl; [exact Htr|].
    pose proof (loop_body_no_request isoparse (combine start_date time_min)
                  (combine end_date time_max) o) as Ho.
    destruct (loop_body _ _ _ o) as [[[|]|e] evs]; simpl in *;
      try apply IH; intros H; apply in_app_or in H; tauto. }
  apply G. intros [].
Qed.

Lemma returned_none_is_a_failed_fetch (now : datetime) (api : HttpResult)
  (c : Cache) :
  returned (get_sales_data now api c) = Ok None ->
  trace (get_sales_data now api c) = [EvHttpGet] /\
  cache_after (get_sales_data now api c) = c.
Proof.
  unfold get_sales_data. destruct (cache_hit now c); simpl; [discriminate|].
  destruct api as [|st [body|]]; simpl; try (now split);
    unfold raise_for_status;
    destruct ((400 <=? st) && (st <? 600)); simpl; try (now split).
  destruct (find_orders_list body); simpl; [discriminate|now split].
Qed.

(** Splits a membership in a list built with [++] and [::] into its
    cases. *)
Ltac in_cases H :=
  lazymatch type of H with
  | In _ (_ ++ _) => apply in_app_or in H; destruct H as [H|H]; in_cases H
  | In _ (_ :: _) => destruct H as [H|H]; [|in_cases H]
  | In _ [] => destruct H
  | _ \/ _ => destruct H as [H|H]; in_cases H
  | False => destruct H
  | _ => idtac
  end.

(** Closes a goal [False] from a membership whose cases are all
    impossible. *)
Ltac not_in H := in_cases H; first [discriminate | contradiction | exact H].

Section SessionProperties.

Variable isoparse : string -> option parsed_datetime.
Variable json_loads : string -> option Json.

Local Abbreviation query_turn' := (query_turn isoparse json_loads).
Local Abbreviation turn' := (turn isoparse json_loads).
Local Abbreviation main_loop' := (main_loop isoparse json_loads).

(** The cache a query leaves is the one [get_sales_data] left, whatever
    happens later in the turn. *)
Lemma query_turn_cache (user_query : string) (env : turn_env) (c : Cache) :
  snd (fst (query_turn' user_query env c))
  = cache_after (get_sales_data (env_now env) (env_api env) c).
Proof.
  unfold query_turn. cbv zeta.
  destruct (returned _) as [[all_orders|]|e]; try reflexivity.
  destruct (get_date_range_from_llm _ _ _ _ _ _) as [[sd ed]|e];
    try reflexivity.
  destruct (fst (filter_orders_by_date _ _ _ _)) as [filtered|e];
    try reflexivity.
  destruct (get_analysis_from_gemini _ _ _) as [analysis|e]; try reflexivity.
  destruct (analysis_line analysis); reflexivity.
Qed.

Lemma turn_cache (user_query : string) (env : turn_env) (c : Cache) :
  is_exit_command user_query = false ->
  snd (fst (turn' (Line user_query) env c))
  = cache_after (get_sales_data (env_now env) (env_api env) c).
Proof.
  intros H. unfold turn. rewrite H.
  rewrite <- (query_turn_cache user_query).
  now destruct (query_turn' user_query env c) as [[evs c'] [u|e]].
Qed.

Lemma turn_end_stops (inp : input_result) (env : turn_env) (c : Cache) :
  snd (turn' inp env c) = if stops inp then Break else Continue.
Proof.
  destruct inp as [q| |]; simpl; try reflexivity.
  destruct (is_exit_command q); [reflexivity|].
  now destruct (query_turn' q env c) as [[evs c'] [u|e]].
Qed.

(** Without Ctrl-C during a call, the loop has ended exactly when one
    of the inputs is Ctrl-C or the command exit or quit, and the inputs
    after the first such input are never read. *)
Lemma main_loop_ended_iff_stops
  (inputs : list (input_result * turn_env)) (c : Cache) :
  (snd (main_loop' inputs c) = Ended <->
   Exists (fun ie => stops (fst ie) = true) inputs) /\
  (forall pre x post,
      inputs = pre ++ x :: post -> stops (fst x) = true ->
      main_loop' inputs c = main_loop' (pre ++ [x]) c).
Proof.
  split.
  - revert c. induction inputs as [|[inp env] rest IH]; intros c; simpl.
    + split; [discriminate|]. intros H. inversion H.
    + pose proof (turn_end_stops inp env c) as Hend.
      destruct (turn' inp env c) as [[evs c'] fin]. simpl in Hend. subst fin.
      destruct (stops inp) eqn:Hs.
      * split; [|reflexivity]. intros _. now left.
      * specialize (IH c').
        destruct (main_loop' rest c') as [[evs' c''] st]. simpl in *.
        rewrite IH. split; intros H; [now right|].
        inversion H as [? ? Hx|]; subst; [|assumption].
        simpl in Hx. congruence.
  - intros pre [inp env] post -> Hs. simpl in Hs. revert c.
    induction pre as [|[inp0 env0] pre IH]; intros c; simpl.
    + pose proof (turn_end_stops inp env c) as Hend.
      destruct (turn' inp env c) as [[evs c'] fin]. simpl in Hend. subst fin.
      now rewrite Hs.
    + destruct (turn' inp0 env0 c) as [[evs c'] [|]]; [|reflexivity].
      now rewrite IH.
Qed.

(** X15: at end of input the loop is not left: each failed read prints
    the unexpected-error message, the cache stays as it is, and the
    loop asks again. *)
Theorem end_of_input_does_not_end_session (n : nat) (env : turn_env)
  (c : Cache) :
  main_loop' (repeat (EOFError, env) n) c
  = (repeat (Printed (UnexpectedError InputFailed)) n, c, WaitingForInput).
Proof.
  induction n as [|n IH]; simpl; [reflexivity|]. now rewrite IH.
Qed.

(** X16: a turn in which no sales data could be fetched sends one
    request to the order API, prints the no-data message, calls the
    model neither for the dates nor for the analysis, leaves the cache
    as it is, and the loop goes on. *)
Theorem turn_without_data_calls_no_model (user_query : string)
  (env : turn_env) (c : Cache) :
  is_exit_command user_query = false ->
  returned (get_sales_data (env_now env) (env_api env) c) = Ok None ->
  turn' (Line user_query) env c
  = ([Did EvHttpGet; Printed NoSalesData], c, Continue).
Proof.
  intros Hq Hr. unfold turn, query_turn. cbv zeta. rewrite Hq, Hr.
  apply returned_none_is_a_failed_fetch in Hr. destruct Hr as [-> ->].
  reflexivity.
Qed.

(** X17: when a turn has fetched a non-empty list, a query in the next
    five minutes sends no request to the order API, whatever else
    happened in the first turn, and the cache still holds the list with
    the time of the first fetch. *)
Theorem next_query_within_five_minutes_sends_no_request
  (q1 q2 : string) (env1 env2 : turn_env) (c : Cache) (l : list Json) :
  is_exit_command q1 = false -> is_exit_command q2 = false ->
  trace (get_sales_data (env_now env1) (env_api env1) c) = [EvHttpGet] ->
  returned (get_sales_data (env_now env1) (env_api env1) c) = Ok (Some l) ->
  l <> [] ->
  datetime_sub (env_now env2) (env_now env1) < CACHE_DURATION ->
  let c1 := snd (fst (turn' (Line q1) env1 c)) in
  c1 = mkCache (Some l) (Some (env_now env1)) /\
  ~ In (Did EvHttpGet) (fst (fst (turn' (Line q2) env2 c1))) /\
  snd (fst (turn' (Line q2) env2 c1)) = c1.
Proof.
  intros Hq1 Hq2 Htr Hret Hne Hlt c1.
  assert (Hc1 : c1 = mkCache (Some l) (Some (env_now env1))).
  { unfold c1. rewrite turn_cache by assumption.
    revert Htr Hret. unfold get_sales_data.
    destruct (cache_hit _ c); simpl; [discriminate|]. intros _.
    destruct (env_api env1) as [|st [body|]]; simpl; try discriminate;
      unfold raise_for_status;
      destruct ((400 <=? st) && (st <? 600)); simpl; try discriminate.
    destruct (find_orders_list body) as [l'|]; simpl; try discriminate.
    now intros [= <-]. }
  assert (Hhit : get_sales_data (env_now env2) (env_api env2) c1
                 = mkOutcome (Ok (Some l)) c1 []).
  { rewrite Hc1. unfold get_sales_data, cache_hit. simpl.
    destruct l as [|x l]; [congruence|].
    apply Z.ltb_lt in Hlt. now rewrite Hlt. }
  split; [exact Hc1|]. split.
  - unfold turn. rewrite Hq2. unfold query_turn. cbv zeta.
    rewrite Hhit. simpl.
    destruct (get_date_range_from_llm _ _ _ _ _ _) as [[sd ed]|e]; simpl;
      [|intros H; not_in H].
    pose proof (filter_no_request isoparse l sd ed) as Hf.
    destruct (filter_orders_by_date isoparse l sd ed) as [fr ftr].
    simpl in *.
    assert (Hm : ~ In (Did EvHttpGet) (map Did ftr)).
    { intros H. apply in_map_iff in H. destruct H as (ev & [= ->] & H).
      contradiction. }
    destruct fr as [filtered|e]; simpl;
      [destruct (get_analysis_from_gemini _ _ _) as [analysis|e]; simpl;
       [destruct (analysis_line analysis); simpl|]|];
      intros H; not_in H.
  - rewrite turn_cache by assumption. now rewrite Hhit.
Qed.

End SessionProperties.

Lemma filter_result_locked (isoparse : string -> option parsed_datetime)
  (all_orders l : list Json) (start_date end_date : date) :
  fst (filter_orders_by_date isoparse all_orders start_date end_date) = Ok l ->
  Forall (fun o => In o all_orders /\ state_is_locked o = true) l.
Proof.
  intros H. apply filter_result_objects in H. destruct H as [Hall ->].
  apply Forall_forall. intros o Ho. apply filter_In in Ho.
  destruct Ho as [Hin Happ]. split; [exact Hin|].
  rewrite Forall_forall in Hall. specialize (Hall o Hin).
  destruct o as [| | | | | |d]; try contradiction.
  now apply appended_true_iff in Happ.
Qed.

Lemma called_not_did (p : prompt) (evs : list event) :
  ~ In (Called p) (map Did evs).
Proof.
  intros H. apply in_map_iff in H. destruct H as (ev & Hev & _).
  discriminate.
Qed.

Lemma printed_not_did (o : output) (evs : list event) :
  ~ In (Printed o) (map Did evs).
Proof.
  intros H. apply in_map_iff in H. destruct H as (ev & Hev & _).
  discriminate.
Qed.

Lemma analysis_line_cases (analysis : option string) (line : string) :
  analysis_line analysis = Ok line ->
  exists text,
    analysis = Some text /\
    ((text <> "" /\ line = text) \/
     (text = "" /\ line = "No analysis available.")).
Proof.
  destruct analysis as [text|]; [|discriminate]. simpl.
  intros [= <-]. exists text. split; [reflexivity|].
  destruct text; simpl; [now right|]. left. split; [discriminate|reflexivity].
Qed.

Section SessionPrompts.

Variable isoparse : string -> option parsed_datetime.
Variable json_loads : string -> option Json.

(** X18: the analysis request of a turn carries the query of that turn
    and only orders that are in the list the fetcher returned and have
    state "locked". *)
Theorem analysis_prompt_holds_locked_orders (inp : input_result)
  (env : turn_env) (c : Cache) (q : string) (orders : list Json) :
  In (Called (AnalysisPrompt q orders))
     (fst (fst (turn isoparse json_loads inp env c))) ->
  inp = Line q /\
  exists all_orders,
    returned (get_sales_data (env_now env) (env_api env) c)
    = Ok (Some all_orders) /\
    Forall (fun o => In o all_orders /\ state_is_locked o = true) orders.
Proof.
  destruct inp as [q0| |]; simpl; try (intros H; not_in H).
  destruct (is_exit_command q0); simpl; [intros H; not_in H|].
  unfold query_turn. cbv zeta.
  destruct (returned _) as [[all_orders|]|e];
    try (simpl; intros H; in_cases H;
         first [discriminate | now apply called_not_did in H | now destruct H]).
  destruct (get_date_range_from_llm _ _ _ _ _ _) as [[sd ed]|e];
    try (simpl; intros H; in_cases H;
         first [discriminate | now apply called_not_did in H | now destruct H]).
  pose proof (filter_result_locked isoparse all_orders) as Hlocked.
  specialize (Hlocked orders sd ed).
  destruct (fst (filter_orders_by_date isoparse all_orders sd ed))
    as [filtered|e];
    try (simpl; intros H; in_cases H;
         first [discriminate | now apply called_not_did in H | now destruct H]).
  destruct (get_analysis_from_gemini _ _ _) as [analysis|e]; simpl;
    [destruct (analysis_line analysis); simpl|];
    intros H; in_cases H;
    first [ now apply called_not_did in H
          | discriminate
          | now destruct H
          | injection H as -> ->; split; [reflexivity|];
            exists all_orders; split; [reflexivity|]; now apply Hlocked ].
Qed.

(** X19: the analysis a turn prints is what the client answered when
    that text is not empty, the line "No analysis available." when it
    is empty, and the apology when the client raised. *)
Theorem printed_analysis_cases (inp : input_result) (env : turn_env)
  (c : Cache) (line : string) :
  In (Printed (AnalysisBody line))
     (fst (fst (turn isoparse json_loads inp env c))) ->
  exists q filtered,
    inp = Line q /\
    ((exists e,
         env_client env (AnalysisPrompt q filtered) = LlmRaises e /\
         line = apology) \/
     (exists text,
         env_client env (AnalysisPrompt q filtered) = LlmResponse (Some text)
         /\ text <> "" /\ line = text) \/
     (env_client env (AnalysisPrompt q filtered) = LlmResponse (Some "")
      /\ line = "No analysis available.")).
Proof.
  destruct inp as [q0| |]; simpl; try (intros H; not_in H).
  destruct (is_exit_command q0); simpl; [intros H; not_in H|].
  unfold query_turn. cbv zeta.
  destruct (returned _) as [[all_orders|]|e];
    try (simpl; intros H; in_cases H;
         first [discriminate | now apply printed_not_did in H | now destruct H]).
  destruct (get_date_range_from_llm _ _ _ _ _ _) as [[sd ed]|e];
    try (simpl; intros H; in_cases H;
         first [discriminate | now apply printed_not_did in H | now destruct H]).
  destruct (fst (filter_orders_by_date isoparse all_orders sd ed))
    as [filtered|e];
    try (simpl; intros H; in_cases H;
         first [discriminate | now apply printed_not_did in H | now destruct H]).
  unfold get_analysis_from_gemini. rewrite try_except_Exception.
  unfold generate_content.
  destruct (env_client env (AnalysisPrompt q0 filtered)) as [e|text] eqn:Hc.
  - simpl. intros H. in_cases H;
      try (now apply printed_not_did in H); try discriminate;
      try contradiction.
    injection H as <-. exists q0, filtered. split; [reflexivity|].
    left. now exists e.
  - destruct (analysis_line text) as [l|e] eqn:Hl; simpl; intros H;
      in_cases H; try (now apply printed_not_did in H); try discriminate;
      try contradiction.
    injection H as <-. exists q0, filtered. split; [reflexivity|].
    apply analysis_line_cases in Hl.
    destruct Hl as (t & -> & [[Hne ->] | [-> ->]]).
    + right. left. now exists t.
    + right. right. now split.
Qed.

(** X20: when the client answers the analysis request with no text,
    the turn prints the header and then the unexpected-error message
    for a TypeError; the loop goes on. *)
Theorem missing_analysis_text_is_an_unexpected_error (user_query : string)
  (env : turn_env) (c : Cache) (all_orders filtered : list Json)
  (start_date end_date : date) :
  is_exit_command user_query = false ->
  returned (get_sales_data (env_now env) (env_api env) c)
  = Ok (Some all_orders) ->
  get_date_range_from_llm isoparse json_loads (env_client env) user_query
    (env_today env) (env_today_in_handler env) = Ok (start_date, end_date) ->
  fst (filter_orders_by_date isoparse all_orders start_date end_date)
  = Ok filtered ->
  env_client env (AnalysisPrompt user_query filtered) = LlmResponse None ->
  exists evs,
    turn isoparse json_loads (Line user_query) env c
    = (evs ++ [Called (AnalysisPrompt user_query filtered);
               Printed (AnalysisHeader user_query start_date end_date);
               Printed (UnexpectedError (Raised TypeError))],
       cache_after (get_sales_data (env_now env) (env_api env) c),
       Continue).
Proof.
  intros Hq Hr Hd Hf Hc. unfold turn, query_turn. cbv zeta.
  rewrite Hq, Hr, Hd, Hf.
  unfold get_analysis_from_gemini, generate_content. rewrite Hc. simpl.
  exists ((map Did (trace (get_sales_data (env_now env) (env_api env) c))
           ++ [Called (DatePrompt (env_today env) user_query)])
          ++ map Did (snd (filter_orders_by_date isoparse all_orders
                             start_date end_date))).
  now rewrite <- !app_assoc.
Qed.

End SessionPrompts.

Lemma turn_without_data_calls_no_model_witness :
  turn iso_fixed_width json_flat_object (Line "sales today?")
    (sample_env (noon (Date 2025 11 1)) (Response 502 None) today_answer)
    _api_cache
  = ([Did EvHttpGet; Printed NoSalesData], _api_cache, Continue).
Proof.
  apply (turn_without_data_calls_no_model iso_fixed_width json_flat_object
           "sales today?"
           (sample_env (noon (Date 2025 11 1)) (Response 502 None)
              today_answer) _api_cache);
    reflexivity.
Defined.

Lemma next_query_within_five_minutes_sends_no_request_witness :
  ~ In (Did EvHttpGet)
       (fst (fst (turn iso_fixed_width json_flat_object (Line "and best sellers?")
                    (sample_env (DateTime (Date 2025 11 1) 12 3 0 0)
                       TransportFailure today_answer)
                    (snd (fst (turn iso_fixed_width json_flat_object
                                 (Line "sales today?")
                                 (sample_env (noon (Date 2025 11 1))
                                    (Response 200 (Some (JList sample_orders)))
                                    today_answer)
                                 _api_cache)))))).
Proof.
  apply (next_query_within_five_minutes_sends_no_request iso_fixed_width
           json_flat_object "sales today?" "and best sellers?"
           (sample_env (noon (Date 2025 11 1))
              (Response 200 (Some (JList sample_orders))) today_answer)
           (sample_env (DateTime (Date 2025 11 1) 12 3 0 0)
              TransportFailure today_answer)
           _api_cache sample_orders);
    [reflexivity | reflexivity | reflexivity | reflexivity | discriminate
    | vm_compute; reflexivity].
Defined.

Lemma analysis_prompt_holds_locked_orders_witness :
  Forall (fun o => In o sample_orders /\ state_is_locked o = true)
    [sample_order "a" "locked" "2025-11-01T10:00:00";
     sample_order "d" "locked" "2025-11-01T23:59:59.999999"].
Proof.
  destruct (analysis_prompt_holds_locked_orders iso_fixed_width
              json_flat_object (Line "sales today?")
              (sample_env (noon (Date 2025 11 1))
                 (Response 200 (Some (JList sample_orders))) today_answer)
              _api_cache "sales today?"
              [sample_order "a" "locked" "2025-11-01T10:00:00";
               sample_order "d" "locked" "2025-11-01T23:59:59.999999"])
    as (_ & all_orders & Hr & Hall).
  - vm_compute. repeat (first [left; reflexivity | right]).
  - vm_compute in Hr. injection Hr as <-. exact Hall.
Defined.

Lemma printed_analysis_cases_witness :
  exists q filtered,
    Line "sales today?" = Line q /\
    ((exists e,
         failing (ClientError "ServerError") (AnalysisPrompt q filtered)
         = LlmRaises e /\ apology = apology) \/
     (exists text,
         failing (ClientError "ServerError") (AnalysisPrompt q filtered)
         = LlmResponse (Some text) /\ text <> "" /\ apology = text) \/
     (failing (ClientError "ServerError") (AnalysisPrompt q filtered)
      = LlmResponse (Some "") /\ apology = "No analysis available.")).
Proof.
  apply (printed_analysis_cases iso_fixed_width json_flat_object
           (Line "sales today?")
           (sample_env (noon (Date 2025 11 1))
              (Response 200 (Some (JList sample_orders)))
              (failing (ClientError "ServerError")))
           _api_cache apology).
  vm_compute. repeat (first [left; reflexivity | right]).
Defined.

Lemma missing_analysis_text_is_an_unexpected_error_witness :
  exists evs,
    turn iso_fixed_width json_flat_object (Line "sales today?")
      (sample_env (noon (Date 2025 11 1))
         (Response 200 (Some (JList sample_orders))) (answering None))
      _api_cache
    = (evs ++ [Called (AnalysisPrompt "sales today?"
                         [sample_order "a" "locked" "2025-11-01T10:00:00";
                          sample_order "d" "locked"
                            "2025-11-01T23:59:59.999999"]);
               Printed (AnalysisHeader "sales today?" (Date 2025 11 1)
                          (Date 2025 11 1));
               Printed (UnexpectedError (Raised TypeError))],
       cache_after (get_sales_data (noon (Date 2025 11 1))
                      (Response 200 (Some (JList sample_orders)))
                      _api_cache),
       Continue).
Proof.
  apply (missing_analysis_text_is_an_unexpected_error iso_fixed_width
           json_flat_object "sales today?"
           (sample_env (noon (Date 2025 11 1))
              (Response 200 (Some (JList sample_orders))) (answering None))
           _api_cache sample_orders
           [sample_order "a" "locked" "2025-11-01T10:00:00";
            sample_order "d" "locked" "2025-11-01T23:59:59.999999"]
           (Date 2025 11 1) (Date 2025 11 1));
    reflexivity.
Defined.

(** ** Ctrl-C during a turn *)

Section InterruptProperties.

Variable isoparse : string -> option parsed_datetime.
Variable json_loads : string -> option Json.

Lemma pass_break (inp : input_result) (env : turn_env)
  (ctrl_c : option blocking_call) (c : Cache) :
  snd (pass isoparse json_loads inp env ctrl_c c) = Break ->
  stops inp = true \/ ctrl_c <> None.
Proof.
  pose proof (turn_end_stops isoparse json_loads inp env c) as Ht.
  unfold pass.
  destruct inp as [q| |], ctrl_c as [at_call|];
    try (rewrite Ht; simpl; intros H;
         first [now left | discriminate
               | destruct (is_exit_command q); [now left|discriminate]]).
  intros _. right. discriminate.
Qed.

Lemma pass_stops (inp : input_result) (env : turn_env)
  (ctrl_c : option blocking_call) (c : Cache) :
  stops inp = true ->
  snd (pass isoparse json_loads inp env ctrl_c c) = Break.
Proof.
  intros Hs.
  pose proof (turn_end_stops isoparse json_loads inp env c) as Ht.
  rewrite Hs in Ht. unfold pass.
  destruct inp as [q| |], ctrl_c as [at_call|]; try exact Ht;
    try discriminate.
  simpl in Hs. now rewrite Hs.
Qed.

(** X14: the loop is left only when the user asks for it, by the
    command exit or quit (in any letter case) or by Ctrl-C at the prompt
    or during a blocking call of a turn.  Whatever else happens in the
    passes (failed requests, undecodable bodies, failing model calls, a
    filter that raises, end of input) the loop goes on: if it has ended,
    one of the passes asked to leave; an exit, quit or Ctrl-C at the
    prompt always ends it; a Ctrl-C during the request to the order API
    ends it with the cache as it was; and without Ctrl-C during calls
    the loop is [main_loop]. *)
Theorem loop_left_only_by_exit_or_ctrl_c
  (passes : list (input_result * turn_env * option blocking_call))
  (c : Cache) :
  (snd (session_loop isoparse json_loads passes c) = Ended ->
   Exists asks_to_leave passes) /\
  (Exists (fun p => stops (fst (fst p)) = true) passes ->
   snd (session_loop isoparse json_loads passes c) = Ended) /\
  (forall user_query env,
      is_exit_command user_query = false ->
      cache_hit (env_now env) c = None ->
      pass isoparse json_loads (Line user_query) env (Some FetchCall) c
      = ([Did EvHttpGet; Printed Goodbye], c, Break)) /\
  (forall inputs,
      passes = map (fun ie => (fst ie, snd ie, None)) inputs ->
      session_loop isoparse json_loads passes c
      = main_loop isoparse json_loads inputs c).
Proof.
  split; [|split; [|split]].
  - revert c. induction passes as [|[[inp env] ctrl_c] rest IH]; intros c;
      simpl; [discriminate|].
    pose proof (pass_break inp env ctrl_c c) as Hb.
    destruct (pass isoparse json_loads inp env ctrl_c c) as [[evs c'] [|]].
    + specialize (IH c').
      destruct (session_loop isoparse json_loads rest c') as [[evs' c''] st].
      simpl in *. intros H. right. now apply IH.
    + intros _. left. now apply Hb.
  - revert c. induction passes as [|[[inp env] ctrl_c] rest IH]; intros c H;
      [inversion H|]. simpl.
    pose proof (pass_stops inp env ctrl_c c) as Hs.
    destruct (pass isoparse json_loads inp env ctrl_c c) as [[evs c'] [|]];
      [|reflexivity].
    inversion H as [? ? Hx|? ? Hx]; subst.
    + simpl in Hx. specialize (Hs Hx). discriminate.
    + specialize (IH c' Hx).
      destruct (session_loop isoparse json_loads rest c') as [[evs' c''] st].
      exact IH.
  - intros q env Hq Hmiss. unfold pass, interrupted_turn.
    now rewrite Hq, Hmiss.
  - intros inputs ->. revert c.
    induction inputs as [|[inp env] rest IH]; intros c; simpl;
      [reflexivity|].
    replace (pass isoparse json_loads inp env None c)
      with (turn isoparse json_loads inp env c) by now destruct inp.
    destruct (turn isoparse json_loads inp env c) as [[evs c'] [|]];
      [|reflexivity].
    now rewrite IH.
Qed.

End InterruptProperties.

Lemma loop_left_only_by_exit_or_ctrl_c_witness :
  snd (session_loop iso_fixed_width json_flat_object
         [(EOFError,
           sample_env (noon (Date 2025 11 1)) TransportFailure today_answer,
           None);
          (Line "sales today?",
           sample_env (noon (Date 2025 11 1)) (Response 500 None) today_answer,
           None);
          (Line "QuIt",
           sample_env (noon (Date 2025 11 1)) TransportFailure today_answer,
           None);
          (Line "more",
           sample_env (noon (Date 2025 11 1)) TransportFailure today_answer,
           None)]
         _api_cache) = Ended.
Proof.
  apply (loop_left_only_by_exit_or_ctrl_c iso_fixed_width json_flat_object).
  right. right. left. reflexivity.
Defined.

(** An answer that starts with a no-break space (U+00A0, bytes 194 160)
    and ends with an em space (U+2003, bytes 226 128 131) is cleaned
    like one with ASCII blanks, and the dates of the answer are
    returned. *)
Example answer_in_unicode_whitespace :
  get_date_range_from_llm iso_fixed_width json_flat_object
    (answering
       (Some (String (ascii_of_nat 194) (String (ascii_of_nat 160)
                (fenced_answer "2025-10-01" "2025-10-31"
                 ++ String (ascii_of_nat 226) (String (ascii_of_nat 128)
                      (String (ascii_of_nat 131) EmptyString))))%string)))
    "last month" (Date 2025 11 1) (Date 2025 11 1)
  = Ok (Date 2025 10 1, Date 2025 10 31).
Proof. reflexivity. Qed.
